(** * healthctl: the cluster diagnostic layer of [pkg/k8s/k8s.go]

    A shallow embedding of the health probes, the remote executor, the Redis
    status resolver and the resource usage aggregator, together with the
    properties the specification states about them.

    Conventions of the embedding.
    - A Go [int] is a [Z]; where the source increments a counter the
      two's-complement wrap-around is written out ([wrap64]).
    - A Go [error] is the text of its message; a nil error is [None].
    - A [float64] is an IEEE 754 binary64 value of [SpecFloat].
    - A Go [map[string]T] is a [gmap string T].
    - What the control plane answers to a read is a field of the client
      record the call goes through; the calls themselves have no effect on
      the cluster.
    - Code that prints, exits through [log.Fatalf] or can panic lives in the
      monad [Go], which threads standard output and stops at the first
      exit or panic. *)

From Stdlib Require Import ZArith String Ascii DecimalString SpecFloat.
From stdpp Require Import gmap strings list fin_maps.

Set Warnings "-register-all,-clear-no-such-hyp".

Local Open Scope Z_scope.
Local Open Scope string_scope.
Local Open Scope list_scope.

(** ** Go runtime: errors, integers, formatting, floats *)

Definition error : Type := string.

Definition wrap64 (z : Z) : Z := (z + 2 ^ 63) mod 2 ^ 64 - 2 ^ 63.
Definition max_int : Z := 2 ^ 63 - 1.

(** [fmt]'s verb [%d] on an [int]. *)
Definition fmt_d (n : Z) : string := NilZero.string_of_int (Z.to_int n).

(** [fmt]'s verb [%v] on an [error]. *)
Definition fmt_v (err : option error) : string :=
  match err with
  | Some msg => msg
  | None => "<nil>"
  end.

Definition nl : string := String (ascii_of_nat 10) EmptyString.

Definition float64 : Type := spec_float.
Definition float64_of_int (z : Z) : float64 := binary_normalize 53 1024 z 0 false.
Definition float64_div (x y : float64) : float64 := SFdiv 53 1024 x y.
Definition float64_mul (x y : float64) : float64 := SFmul 53 1024 x y.
Definition float64_zero : float64 := S754_zero false.

(** ** The monad of code that prints, exits or panics *)

Inductive outcome (A : Type) : Type :=
| Returned (a : A)          (* the function returned [a] to its caller *)
| Fatal (msg : string)      (* [log.Fatalf]: the message is logged, the process exits *)
| Panicked (msg : string).  (* a run-time panic that nothing recovers *)
Arguments Returned {A} a.
Arguments Fatal {A} msg.
Arguments Panicked {A} msg.

(** A computation maps the text printed so far to an outcome and the text
    printed at the end. *)
Definition Go (A : Type) : Type := list string -> outcome A * list string.

Definition ret {A} (a : A) : Go A := fun out => (Returned a, out).

Definition bind {A B} (m : Go A) (k : A -> Go B) : Go B :=
  fun out =>
    match m out with
    | (Returned a, out') => k a out'
    | (Fatal msg, out') => (Fatal msg, out')
    | (Panicked msg, out') => (Panicked msg, out')
    end.

Notation "'do' x <- m ; k" := (bind m (fun x => k))
  (at level 10, x name, m at level 100, k at level 200).
Notation "m ;; k" := (bind m (fun _ => k))
  (at level 100, k at level 200, right associativity).

Definition Println (s : string) : Go unit := fun out => (Returned tt, out ++ [s +:+ nl]).
Definition Printf (s : string) : Go unit := fun out => (Returned tt, out ++ [s]).
Definition log_Fatalf {A} (msg : string) : Go A := fun out => (Fatal msg, out).
Definition panic {A} (msg : string) : Go A := fun out => (Panicked msg, out).

(** [s[i]] on a slice: a run-time panic out of range. *)
Definition index {A} (s : list A) (i : nat) : Go A :=
  match s !! i with
  | Some x => ret x
  | None =>
      panic ("runtime error: index out of range [" +:+ fmt_d (Z.of_nat i)
             +:+ "] with length " +:+ fmt_d (Z.of_nat (length s)))
  end.

(** Runs a computation from an empty standard output. *)
Definition run {A} (m : Go A) : outcome A * list string := m [].

(** The caller got a value back: the process neither exited nor panicked. *)
Definition returns {A} (m : Go A) : Prop := exists a out, run m = (Returned a, out).

(** ** [resource.Quantity]

    The package is not part of the repository. A quantity is represented by
    what the four methods the source calls on it answer, so every statement
    below holds whatever the library computes. *)
Module resource.
Record Quantity : Type := {
  IsZero : bool;
  MilliValue : Z;
  Value : Z;
  String : string
}.

(** The zero value [Quantity{}], which a map lookup of an absent key and
    [ResourceList.Cpu] / [ResourceList.Memory] of an absent key yield. *)
Definition zero : Quantity :=
  {| IsZero := true; MilliValue := 0; Value := 0; String := "0" |}.
End resource.

(** ** [k8s.io/api/core/v1] and the metrics API: the fields the source reads *)
Module v1.
Definition ResourceCPU : string := "cpu".
Definition ResourceMemory : string := "memory".

Record NodeCondition : Type := {
  NodeCondition_Type : string;
  NodeCondition_Status : string
}.
Record NodeStatus : Type := { NodeStatus_Conditions : list NodeCondition }.
Record Node : Type := { Node_Name : string; Node_Status : NodeStatus }.

Record ResourceRequirements : Type := {
  Requests : gmap string resource.Quantity
}.
Record Container : Type := {
  Container_Name : string;
  Container_Resources : ResourceRequirements
}.
Record PodSpec : Type := {
  PodSpec_NodeName : string;
  PodSpec_Containers : list Container
}.
Record PodStatus : Type := { PodStatus_Phase : string }.
Record Pod : Type := {
  Pod_Name : string;
  Pod_Namespace : string;
  Pod_Spec : PodSpec;
  Pod_Status : PodStatus
}.

(** [&v1.Pod{}], what the typed client hands back next to an error. *)
Definition Pod_empty : Pod :=
  {| Pod_Name := ""; Pod_Namespace := "";
     Pod_Spec := {| PodSpec_NodeName := ""; PodSpec_Containers := [] |};
     Pod_Status := {| PodStatus_Phase := "" |} |}.

(** [rl[name]]: the zero quantity for an absent key. *)
Definition get (rl : gmap string resource.Quantity) (name : string) : resource.Quantity :=
  default resource.zero (rl !! name).
(** [rl.Cpu()] and [rl.Memory()]. *)
Definition Cpu (rl : gmap string resource.Quantity) : resource.Quantity := get rl ResourceCPU.
Definition Memory (rl : gmap string resource.Quantity) : resource.Quantity := get rl ResourceMemory.
End v1.

Module metricsv1beta1.
Record ContainerMetrics : Type := {
  ContainerMetrics_Name : string;
  Usage : gmap string resource.Quantity
}.
Record PodMetrics : Type := {
  PodMetrics_Name : string;
  PodMetrics_Namespace : string;
  Containers : list ContainerMetrics
}.
End metricsv1beta1.

(** ** [unstructured]: a custom resource as an untyped JSON document *)
Inductive json : Type :=
| JNull
| JBool (b : bool)
| JNumber (n : Z)
| JString (s : string)
| JArray (items : list json)
| JObject (fields : list (string * json)).

(** [m[key]] on a [map[string]interface{}] held as its key/value pairs. *)
Fixpoint field (key : string) (fields : list (string * json)) : option json :=
  match fields with
  | [] => None
  | (k, v) :: rest => if decide (k = key) then Some v else field key rest
  end.

(** [fmt]'s verbs [%T] and [%v] on a value of an untyped document; a map is
    printed with its keys in increasing order. *)
Definition fmt_T_value (value : json) : string :=
  match value with
  | JNull => "<nil>"
  | JBool _ => "bool"
  | JNumber _ => "int64"
  | JString _ => "string"
  | JArray _ => "[]interface {}"
  | JObject _ => "map[string]interface {}"
  end.

Fixpoint insert_by_key (entry : string * string) (sorted : list (string * string))
  : list (string * string) :=
  match sorted with
  | [] => [entry]
  | head :: rest =>
      if String.leb entry.1 head.1 then entry :: sorted
      else head :: insert_by_key entry rest
  end.

Definition sort_by_key (entries : list (string * string)) : list (string * string) :=
  foldr insert_by_key [] entries.

Fixpoint fmt_v_value (value : json) : string :=
  match value with
  | JNull => "<nil>"
  | JBool b => if b then "true" else "false"
  | JNumber n => fmt_d n
  | JString s => s
  | JArray items => "[" +:+ String.concat " " (List.map fmt_v_value items) +:+ "]"
  | JObject fields =>
      let printed :=
        (fix each (fields : list (string * json)) : list (string * string) :=
           match fields with
           | [] => []
           | (key, value) :: rest => (key, fmt_v_value value) :: each rest
           end) fields in
      "map["
      +:+ String.concat " " (List.map (fun entry => entry.1 +:+ ":" +:+ entry.2)
                                      (sort_by_key printed))
      +:+ "]"
  end.

(** [unstructured.NestedMap(obj, name)] with one path element: the map, the
    [found] flag and the error. *)
Definition NestedMap (obj : list (string * json)) (name : string)
  : option (list (string * json)) * bool * option error :=
  match field name obj with
  | None => (None, false, None)
  | Some (JObject m) => (Some m, true, None)
  | Some value =>
      (None, false,
       Some ("." +:+ name +:+ " accessor error: " +:+ fmt_v_value value
             +:+ " is of the type " +:+ fmt_T_value value
             +:+ ", expected map[string]interface{}"))
  end.

(** ** The client handle

    Each field is what the control plane answers to the read the source
    issues through it; [inl err] is a failed call. *)
Record GroupVersionResource : Type := {
  Group : string;
  Version : string;
  Resource : string
}.

Record Clientset : Type := {
  (** [CoreV1().Nodes().List] *)
  Nodes_List : error + list v1.Node;
  (** [CoreV1().Pods(namespace).List] *)
  Pods_List : string -> error + list v1.Pod;
  (** [CoreV1().Pods(namespace).Get(name)] *)
  Pods_Get : string -> string -> error + v1.Pod
}.

Record DynamicInterface : Type := {
  (** [Resource(gvr).Namespace(namespace).Get(name)]: the [Object] of the
      custom resource. *)
  Resource_Get : GroupVersionResource -> string -> string -> error + list (string * json)
}.

Record MetricsClientset : Type := {
  (** [MetricsV1beta1().PodMetricses(namespace).List] *)
  PodMetricses_List : string -> error + list metricsv1beta1.PodMetrics
}.

Record K8sClient : Type := {
  Client : Clientset;
  DynamicClient : DynamicInterface;
  MetricsClient : MetricsClientset
}.

(** The typed client returns a pointer to an empty object next to the error
    of a failed [Get]. *)
Definition Get_result (r : error + v1.Pod) : v1.Pod * option error :=
  match r with
  | inl err => (v1.Pod_empty, Some err)
  | inr pod => (pod, None)
  end.

(** ** [clientcmd] and [remotecommand]: what the exec channel does *)
Record PodExecOptions : Type := {
  Command : list string;
  Stdin : bool;
  Stdout : bool;
  Stderr : bool;
  TTY : bool
}.

Record ExecRequest : Type := {
  Request_Namespace : string;
  Request_Name : string;
  Request_Container : string;
  Request_Options : PodExecOptions
}.

Record Config : Type := { Host : string }.

Record Platform : Type := {
  (** [clientcmd.BuildConfigFromFlags("", *kubeconfig)] *)
  BuildConfigFromFlags : error + Config;
  (** [remotecommand.NewSPDYExecutor]: [Some err] is a nil executor and the
      error, [None] an executor for the request. *)
  NewSPDYExecutor : Config -> ExecRequest -> option error;
  (** [exec.Stream]: what was written to the two buffers, and the error of
      the stream. *)
  Stream : Config -> ExecRequest -> string * string * option error
}.

(** ** HealthCheckEngine *)
Record TestStatus : Type := {
  Status : bool;
  Info : string;
  Error : option error
}.

(** The inner loop of [CheckNodes]: [Some] is the early return. *)
Fixpoint CheckNodes_conditions (Name : string) (conditions : list v1.NodeCondition)
  : option TestStatus :=
  match conditions with
  | [] => None
  | condition :: rest =>
      if bool_decide (v1.NodeCondition_Type condition = "Ready")
         && negb (bool_decide (v1.NodeCondition_Status condition = "True"))
      then Some {| Status := false;
                   Info := "Node " +:+ Name +:+ " is not ready" +:+ nl;
                   Error := None |}
      else CheckNodes_conditions Name rest
  end.

Fixpoint CheckNodes_items (items : list v1.Node) : TestStatus :=
  match items with
  | [] => {| Status := true; Info := "All nodes are ready"; Error := None |}
  | node :: rest =>
      match CheckNodes_conditions (v1.Node_Name node)
              (v1.NodeStatus_Conditions (v1.Node_Status node)) with
      | Some verdict => verdict
      | None => CheckNodes_items rest
      end
  end.

Definition CheckNodes (kc : K8sClient) : TestStatus :=
  match Nodes_List (Client kc) with
  | inl err => {| Status := false; Info := ""; Error := Some err |}
  | inr items => CheckNodes_items items
  end.

(** The counting loop of [CheckPods]. *)
Definition CheckPods_count (items : list v1.Pod) : Z :=
  foldl (fun notRunningCount pod =>
           if bool_decide (v1.PodStatus_Phase (v1.Pod_Status pod) = "Running")
           then notRunningCount
           else wrap64 (notRunningCount + 1))
        0 items.

Definition CheckPods (kc : K8sClient) : TestStatus :=
  match Pods_List (Client kc) "" with
  | inl err => {| Status := false; Info := ""; Error := Some err |}
  | inr items =>
      let notRunningCount := CheckPods_count items in
      if bool_decide (notRunningCount > 0)
      then {| Status := false;
              Info := fmt_d notRunningCount +:+ " pods are in not running state" +:+ nl;
              Error := None |}
      else {| Status := true; Info := "All pods are running"; Error := None |}
  end.

(** ** RemoteExecutor *)

(** The POST on the [exec] subresource of the pod that the source builds. *)
Definition exec_request (namespace pod container command : string) : ExecRequest :=
  {| Request_Namespace := namespace;
     Request_Name := pod;
     Request_Container := container;
     Request_Options := {| Command := ["/bin/sh"; "-c"; command];
                           Stdin := false; Stdout := true; Stderr := true;
                           TTY := true |} |}.

Definition ExecuteRemoteCommand (sys : Platform) (kc : K8sClient)
    (namespace pod container command : string) : Go (string * string * option error) :=
  do config <- match BuildConfigFromFlags sys with
               | inl err => panic err
               | inr config => ret config
               end;
  let request := exec_request namespace pod container command in
  (* exec, _ := remotecommand.NewSPDYExecutor(...) *)
  let exec := NewSPDYExecutor sys config request in
  (* _ = exec.Stream(...) *)
  do buffers <- match exec with
                | Some _ => panic "runtime error: invalid memory address or nil pointer dereference"
                | None => ret (Stream sys config request).1
                end;
  ret (buffers.1, buffers.2, None).

(** ** RedisClusterStatusResolver: the data model *)

(** An individual Redis node in the cluster. *)
Record Node : Type := {
  ID : string;
  IP : string;
  PodName : string;
  Port : string;
  Role : string;
  Slots : list string;
  PrimaryRef : string;
  Zone : string
}.

Record Cluster : Type := {
  LabelSelectorPath : string;
  MaxReplicationFactor : Z;
  MinReplicationFactor : Z;
  Nodes : list Node;
  NumberOfPods : Z;
  NumberOfPodsReady : Z;
  NumberOfPrimaries : Z;
  NumberOfPrimariesReady : Z;
  NumberOfRedisNodesRunning : Z;
  NumberOfReplicasPerPrimary : gmap string Z;
  Cluster_Status : string
}.

(** A [time.Time] is kept as its RFC 3339 text. *)
Record Condition : Type := {
  LastProbeTime : string;
  LastTransitionTime : string;
  Message : string;
  Reason : string;
  Condition_Status : string;
  Condition_Type : string
}.

Record ClusterStatus : Type := {
  ClusterStatus_Cluster : Cluster;
  Conditions : list Condition;
  StartTime : string
}.

Record missingDetails : Type := {
  Worker : string;
  CPU : string;
  Memory : string
}.

Record RedisStatus : Type := {
  PrimariesConfigured : Z;
  ReplicasConfigured : Z;
  PodStatus : bool;
  ClusterState : bool;
  ClusterSlotsOk : Z;
  ClusterKnownNodes : Z;
  ClusterSize : Z;
  ClusterSlotsPfail : Z;
  ClusterSlotsFail : Z;
  NumberActiveZones : Z;
  RedisNodeDetails : list Node;
  NumberZonesPrimaries : Z;
  NumberPrimariesInZone : Z;
  PodDetails : gmap string missingDetails
}.

(** [RedisStatus{}] *)
Definition RedisStatus_zero : RedisStatus :=
  {| PrimariesConfigured := 0; ReplicasConfigured := 0; PodStatus := false;
     ClusterState := false; ClusterSlotsOk := 0; ClusterKnownNodes := 0;
     ClusterSize := 0; ClusterSlotsPfail := 0; ClusterSlotsFail := 0;
     NumberActiveZones := 0; RedisNodeDetails := []; NumberZonesPrimaries := 0;
     NumberPrimariesInZone := 0; PodDetails := ∅ |}.

Definition redis_namespace : string := "fed-redis-cluster".
Definition customResourceName : string := "node-for-redis".
Definition redisclusters : GroupVersionResource :=
  {| Group := "db.ibm.com"; Version := "v1alpha1"; Resource := "redisclusters" |}.

(** ** RedisClusterStatusResolver: the algorithm *)

(** The closure behind [NumberActiveZones]. *)
Definition zoneMap_of (nodes : list Node) : gmap string bool :=
  foldl (fun zoneMap node => <[Zone node := true]> zoneMap) ∅ nodes.

Definition activeZones (nodes : list Node) : Z := Z.of_nat (size (zoneMap_of nodes)).

(** The closure behind [PodDetails]: one round per node of [nodeList]. *)
Fixpoint PodDetails_loop (kc : K8sClient) (nodeList : list Node)
    (podDetails : gmap string missingDetails) : Go (gmap string missingDetails) :=
  match nodeList with
  | [] => ret podDetails
  | node :: rest =>
      let '(pod, err) := Get_result (Pods_Get (Client kc) redis_namespace (PodName node)) in
      match err with
      | Some e => Println e
      | None => ret tt
      end;;
      do container <- index (v1.PodSpec_Containers (v1.Pod_Spec pod)) 0;
      let requests := v1.Requests (v1.Container_Resources container) in
      let nodeDetails :=
        {| Worker := v1.PodSpec_NodeName (v1.Pod_Spec pod);
           CPU := resource.String (v1.Cpu requests);
           Memory := resource.String (v1.Memory requests) |} in
      PodDetails_loop kc rest (<[PodName node := nodeDetails]> podDetails)
  end.

Section Resolver.
(** [json.Marshal] of the status mapping followed by [json.Unmarshal] into
    a [ClusterStatus]: [encoding/json] is not part of the repository, and
    the resolver is stated for whatever it decides. *)
Variable json_Unmarshal : json -> error + ClusterStatus.

Definition GetRedisStatus (kc : K8sClient) : Go RedisStatus :=
  match Resource_Get (DynamicClient kc) redisclusters redis_namespace customResourceName with
  | inl err => Println err;; ret RedisStatus_zero
  | inr customResource =>
      let '(status, found, err) := NestedMap customResource "status" in
      (if bool_decide (err <> None) || negb found
       then log_Fatalf ("Error fetching status field: " +:+ fmt_v err)
       else ret tt);;
      let temp := match status with Some m => JObject m | None => JNull end in
      do clusterStatus <-
        match json_Unmarshal temp with
        | inl err => log_Fatalf ("Error unmarshalling status field: " +:+ err)
        | inr clusterStatus => ret clusterStatus
        end;
      let cluster := ClusterStatus_Cluster clusterStatus in
      let zones := activeZones (Nodes cluster) in
      do podDetails <- PodDetails_loop kc (Nodes cluster) ∅;
      ret {| PrimariesConfigured := NumberOfPrimaries cluster;
             ReplicasConfigured := MaxReplicationFactor cluster;
             PodStatus := bool_decide (NumberOfPods cluster = NumberOfPodsReady cluster);
             ClusterState := bool_decide (Cluster_Status cluster = "OK");
             ClusterSlotsOk := Z.of_nat (length (Nodes cluster));
             ClusterKnownNodes := Z.of_nat (length (Nodes cluster));
             ClusterSize := NumberOfPods cluster;
             ClusterSlotsPfail := 0;
             ClusterSlotsFail := 0;
             NumberActiveZones := zones;
             RedisNodeDetails := Nodes cluster;
             NumberZonesPrimaries := 1;
             NumberPrimariesInZone := NumberOfPrimaries cluster;
             PodDetails := podDetails |}
  end.
End Resolver.

(** ** ResourceUsageAggregator *)
Record ContainerUsage : Type := {
  ContainerUsage_Name : string;
  CPUUsage : float64;
  MemoryUsage : float64
}.

Record PodUsage : Type := {
  PodUsage_PodName : string;
  PodUsage_Namespace : string;
  ContainerUsages : list ContainerUsage
}.

Record ResourceUsageReport : Type := { PodsUsage : list PodUsage }.

Definition GetCPUUsagePercentage (usage request : resource.Quantity) : float64 :=
  if resource.IsZero request then float64_zero
  else float64_mul
         (float64_div (float64_of_int (resource.MilliValue usage))
                      (float64_of_int (resource.MilliValue request)))
         (float64_of_int 100).

Definition GetMemoryUsagePercentage (usage request : resource.Quantity) : float64 :=
  if resource.IsZero request then float64_zero
  else float64_mul
         (float64_div (float64_of_int (resource.Value usage))
                      (float64_of_int (resource.Value request)))
         (float64_of_int 100).

(** [fmt.Sprintf("%s/%s", namespace, name)] *)
Definition podKey (namespace name : string) : string := namespace +:+ "/" +:+ name.

Definition podMetricsMap_of (items : list metricsv1beta1.PodMetrics)
  : gmap string metricsv1beta1.PodMetrics :=
  foldl (fun podMetricsMap podMetrics =>
           <[podKey (metricsv1beta1.PodMetrics_Namespace podMetrics)
                    (metricsv1beta1.PodMetrics_Name podMetrics) := podMetrics]> podMetricsMap)
        ∅ items.

(** The body of the innermost loop: one container against one metrics entry. *)
Definition containerUsage_step (container : v1.Container)
    (usages : list ContainerUsage) (containerMetrics : metricsv1beta1.ContainerMetrics)
  : list ContainerUsage :=
  if bool_decide (v1.Container_Name container
                  = metricsv1beta1.ContainerMetrics_Name containerMetrics)
  then
    let requestedCPU := v1.get (v1.Requests (v1.Container_Resources container)) v1.ResourceCPU in
    let requestedMemory := v1.get (v1.Requests (v1.Container_Resources container)) v1.ResourceMemory in
    let usedCPU := v1.get (metricsv1beta1.Usage containerMetrics) v1.ResourceCPU in
    let usedMemory := v1.get (metricsv1beta1.Usage containerMetrics) v1.ResourceMemory in
    let cpuPercentage := GetCPUUsagePercentage usedCPU requestedCPU in
    let memoryPercentage := GetMemoryUsagePercentage usedMemory requestedMemory in
    usages ++ [{| ContainerUsage_Name := v1.Container_Name container;
                  CPUUsage := cpuPercentage;
                  MemoryUsage := memoryPercentage |}]
  else usages.

(** The two loops over the containers of a pod and of its metrics. *)
Definition containerUsages_of (containers : list v1.Container)
    (podMetrics : metricsv1beta1.PodMetrics) : list ContainerUsage :=
  foldl (fun usages container =>
           foldl (containerUsage_step container) usages
                 (metricsv1beta1.Containers podMetrics))
        [] containers.

(** One round of the loop over the pods. *)
Definition podUsage_step (podMetricsMap : gmap string metricsv1beta1.PodMetrics)
    (pod : v1.Pod) : Go PodUsage :=
  match podMetricsMap !! podKey (v1.Pod_Namespace pod) (v1.Pod_Name pod) with
  | Some podMetrics =>
      ret {| PodUsage_PodName := v1.Pod_Name pod;
             PodUsage_Namespace := v1.Pod_Namespace pod;
             ContainerUsages :=
               containerUsages_of (v1.PodSpec_Containers (v1.Pod_Spec pod)) podMetrics |}
  | None =>
      Printf ("No metrics available for pod: "
              +:+ podKey (v1.Pod_Namespace pod) (v1.Pod_Name pod) +:+ nl);;
      ret {| PodUsage_PodName := v1.Pod_Name pod;
             PodUsage_Namespace := v1.Pod_Namespace pod;
             ContainerUsages := [] |}
  end.

Fixpoint podsUsage_loop (podMetricsMap : gmap string metricsv1beta1.PodMetrics)
    (items : list v1.Pod) (report : ResourceUsageReport) : Go ResourceUsageReport :=
  match items with
  | [] => ret report
  | pod :: rest =>
      do podusage <- podUsage_step podMetricsMap pod;
      podsUsage_loop podMetricsMap rest {| PodsUsage := PodsUsage report ++ [podusage] |}
  end.

Definition GetResourceUsageReport (kc : K8sClient) : Go ResourceUsageReport :=
  let report := {| PodsUsage := [] |} in
  do pods <- match Pods_List (Client kc) "" with
             | inl err => log_Fatalf ("Error fetching pods: " +:+ err)
             | inr pods => ret pods
             end;
  do podMetricsList <- match PodMetricses_List (MetricsClient kc) "" with
                       | inl err => log_Fatalf ("Error fetching pod metrics: " +:+ err)
                       | inr items => ret items
                       end;
  let podMetricsMap := podMetricsMap_of podMetricsList in
  podsUsage_loop podMetricsMap pods report.

(** ** The other reads of [kc.Client.CoreV1()] *)
Record Event : Type := { Event_Type : string }.

Record Namespace : Type := { Namespace_Name : string }.

Record LoadBalancerIngress : Type := { LoadBalancerIngress_IP : string }.

(** A service: its [Status.LoadBalancer.Ingress]. *)
Record Service : Type := { Service_Ingress : list LoadBalancerIngress }.

Record CoreV1Interface : Type := {
  (** [CoreV1().Events(namespace).List] *)
  Events_List : string -> error + list Event;
  (** [CoreV1().Namespaces().List] *)
  Namespaces_List : error + list Namespace;
  (** [CoreV1().Services(namespace).Get(name)] *)
  Services_Get : string -> string -> error + Service;
  (** [CoreV1().Pods(namespace).List] with a [FieldSelector] *)
  Pods_List_selected : string -> string -> error + list v1.Pod
}.

(** The typed client returns a pointer to an empty list next to the error of
    a failed [List]. *)
Definition List_result {A} (r : error + list A) : list A * option error :=
  match r with
  | inl err => ([], Some err)
  | inr items => (items, None)
  end.

(** ** Listings *)

(** [GetClusterNodesName]: the error of the listing is dropped. *)
Definition GetClusterNodesName (kc : K8sClient) : list string :=
  let nodes := (List_result (Nodes_List (Client kc))).1 in
  foldl (fun nodeNames node => nodeNames ++ [v1.Node_Name node]) [] nodes.

Definition GetClusterNamespaces (core : CoreV1Interface) : list string :=
  match Namespaces_List core with
  | inl _ => []
  | inr items =>
      foldl (fun namespaceList namespace => namespaceList ++ [Namespace_Name namespace])
            [] items
  end.

Definition GetPods (kc : K8sClient) (namespace : string) : list string :=
  match Pods_List (Client kc) namespace with
  | inl _ => []
  | inr items => foldl (fun podList pod => podList ++ [v1.Pod_Name pod]) [] items
  end.

Definition GetContainers (core : CoreV1Interface) (pod : string) : Go (list string) :=
  match Pods_List_selected core "" ("metadata.name=" +:+ pod) with
  | inl _ => ret []
  | inr items =>
      do first <- index items 0;
      ret (foldl (fun containerList container =>
                    containerList ++ [v1.Container_Name container])
                 [] (v1.PodSpec_Containers (v1.Pod_Spec first)))
  end.

(** ** HealthCheckEngine: events *)
Definition CheckEvents_counts (items : list Event) : Z * Z :=
  foldl (fun counts event =>
           let warningEventsCount :=
             if bool_decide (Event_Type event = "Warning")
             then wrap64 (counts.1 + 1) else counts.1 in
           let errorEventsCount :=
             if bool_decide (Event_Type event = "Error")
             then wrap64 (counts.2 + 1) else counts.2 in
           (warningEventsCount, errorEventsCount))
        (0, 0) items.

Definition CheckEvents (core : CoreV1Interface) : TestStatus :=
  match Events_List core "" with
  | inl err => {| Status := false; Info := ""; Error := Some err |}
  | inr items =>
      let counts := CheckEvents_counts items in
      let warningEventsCount := counts.1 in
      let errorEventsCount := counts.2 in
      if bool_decide (warningEventsCount > 0) || bool_decide (errorEventsCount > 0)
      then {| Status := false;
              Info := fmt_d warningEventsCount +:+ " warning events and "
                      +:+ fmt_d errorEventsCount +:+ " error events found" +:+ nl;
              Error := None |}
      else {| Status := true; Info := "No failed events found"; Error := None |}
  end.

(** ** The kargo service *)
Definition GetKargoServiceIP (core : CoreV1Interface) : string * option error :=
  match Services_Get core "fed-paas-helpers" "kargo" with
  | inl err => ("", Some err)
  | inr service =>
      match Service_Ingress service with
      | [] => ("", Some "no LoadBalancer Ingress found for kargo service")
      | ingress :: _ => (LoadBalancerIngress_IP ingress, None)
      end
  end.

(** ** AlertQueryAdapter *)
Record Alert : Type := {
  AlertName : string;
  Severity : string;
  StartsAt : string;
  Alert_PodName : string;
  Summary : string
}.

Record origAlert : Type := {
  Labels : gmap string string;
  Annotations : gmap string string;
  origAlert_StartsAt : string;
  EndsAt : string
}.

Definition dquote : string := String (ascii_of_nat 34) EmptyString.

Definition amtool_command : string :=
  "sh -c " +:+ dquote
  +:+ "amtool -o json alert query -a --alertmanager.url http://localhost:9093"
  +:+ dquote.

(** The body of the loop of [GetAlerts]: a label or annotation that is not
    there reads as the empty string. *)
Definition Alert_of (alert : origAlert) : Alert :=
  {| AlertName := default "" (Labels alert !! "alertname");
     Severity := default "" (Labels alert !! "severity");
     StartsAt := origAlert_StartsAt alert;
     Alert_PodName := default "" (Labels alert !! "pod");
     Summary := default "" (Annotations alert !! "summary") |}.

Section Alerts.
(** [json.Unmarshal([]byte(stdout), &origAlerts)] on an empty slice: the
    slice after the call and the error. [encoding/json] is not part of the
    repository. *)
Variable json_Unmarshal_origAlerts : string -> list origAlert * option error.

Definition GetAlerts (sys : Platform) (kc : K8sClient) : Go (list Alert) :=
  let alertList := [] in
  let command := amtool_command in
  do result <- ExecuteRemoteCommand sys kc "fed-prometheus"
                 "alertmanager-prometheus-alerts-0" "alertmanager" command;
  let stdout := result.1.1 in
  let stderr := result.1.2 in
  match result.2 with
  | Some err => Println err;; Println stderr
  | None => ret tt
  end;;
  let decoded := json_Unmarshal_origAlerts stdout in
  match decoded.2 with
  | Some err => Println err
  | None => ret tt
  end;;
  ret (foldl (fun alertList alert => alertList ++ [Alert_of alert]) alertList decoded.1).
End Alerts.
(** ** The Redis helpers and the debug level *)
Record RedisDbSizeInfo : Type := {
  RedisDbSizeInfo_PodName : string;
  Output : string
}.

Definition redis_container : string := "redis-node".

(** [fmt.Sprintf("redis-cli ... redis-cluster.%s.svc.cluster.local:6379 <verb>", redis_namespace)] *)
Definition redis_cli (verb : string) : string :=
  "redis-cli --cluster call --cluster-only-masters redis-cluster."
  +:+ redis_namespace +:+ ".svc.cluster.local:6379 " +:+ verb.

Fixpoint GetRedisDbSize_loop (sys : Platform) (kc : K8sClient) (items : list v1.Pod)
    (returnSize : list RedisDbSizeInfo) : Go (list RedisDbSizeInfo) :=
  match items with
  | [] => ret returnSize
  | pod :: rest =>
      let command := redis_cli "dbsize" in
      do result <- ExecuteRemoteCommand sys kc redis_namespace (v1.Pod_Name pod)
                     redis_container command;
      match result.2 with
      | Some err => Println err;; Println result.1.2
      | None => ret tt
      end;;
      GetRedisDbSize_loop sys kc rest
        (returnSize ++ [{| RedisDbSizeInfo_PodName := v1.Pod_Name pod;
                           Output := result.1.1 |}])
  end.

Definition GetRedisDbSize (sys : Platform) (kc : K8sClient) : Go (list RedisDbSizeInfo) :=
  match Pods_List (Client kc) redis_namespace with
  | inl _ => ret []
  | inr items => GetRedisDbSize_loop sys kc items []
  end.

Fixpoint FlushRedisData_loop (sys : Platform) (kc : K8sClient) (items : list v1.Pod)
    (returnSize : list RedisDbSizeInfo) : Go (option error) :=
  match items with
  | [] => ret None
  | pod :: rest =>
      let command := redis_cli "flushall" in
      do result <- ExecuteRemoteCommand sys kc redis_namespace (v1.Pod_Name pod)
                     redis_container command;
      match result.2 with
      | Some err => Println err;; Println result.1.2;; ret (Some err)
      | None =>
          FlushRedisData_loop sys kc rest
            (returnSize ++ [{| RedisDbSizeInfo_PodName := v1.Pod_Name pod;
                               Output := result.1.1 |}])
      end
  end.

Definition FlushRedisData (sys : Platform) (kc : K8sClient) : Go (option error) :=
  match Pods_List (Client kc) redis_namespace with
  | inl _ => ret None
  | inr items => FlushRedisData_loop sys kc items []
  end.

(** [fmt.Sprintf("curl http://127.0.0.1:%s/tenv/eTrace/enable?filter=all\\&level=%s", port, debugLevel)] *)
Definition debug_command (port debugLevel : string) : string :=
  "curl http://127.0.0.1:" +:+ port +:+ "/tenv/eTrace/enable?filter=all\&level="
  +:+ debugLevel.

Definition SetDebugLevel (sys : Platform) (kc : K8sClient)
    (namespace pod container debugLevel : string) : Go bool :=
  let port := "9090" in
  let command := debug_command port debugLevel in
  Println command;;
  do result <- ExecuteRemoteCommand sys kc namespace pod container command;
  match result.2 with
  | Some err => Println err;; Println result.1.2;; ret false
  | None => Println result.1.1;; ret true
  end.

(** ** The kubeconfig and its contexts *)
Module clientcmdapi.
Record Context : Type := { Cluster : string }.

Record Config : Type := {
  Contexts : gmap string Context;
  CurrentContext : string
}.
End clientcmdapi.

Section Kubeconfig.
(** [clientcmd.LoadFromFile( *kubeconfig)] *)
Variable LoadFromFile : error + clientcmdapi.Config.

(** The order in which [range] visits the entries of a map: each entry once,
    in an order the language leaves open. *)
Variable range : gmap string clientcmdapi.Context -> list (string * clientcmdapi.Context).

Definition GetClustersFromKubeConfig : Go clientcmdapi.Config :=
  match LoadFromFile with
  | inl err => panic err
  | inr config => ret config
  end.

Definition GetCurrentContext : Go string :=
  do config <- GetClustersFromKubeConfig;
  ret (clientcmdapi.CurrentContext config).

Definition GetCurrentCluster : Go string :=
  let cluster := "" in
  do config <- GetClustersFromKubeConfig;
  ret (foldl (fun cluster entry =>
                if bool_decide (entry.1 = clientcmdapi.CurrentContext config)
                then clientcmdapi.Cluster entry.2
                else cluster)
             cluster (range (clientcmdapi.Contexts config))).

(** The loop at the head of [SetContext]: the configuration it then writes
    back to the kubeconfig file. *)
Definition SetContext_config (config : clientcmdapi.Config) (contextToSwitch : string)
  : clientcmdapi.Config :=
  foldl (fun config entry =>
           if bool_decide (clientcmdapi.Cluster entry.2 = contextToSwitch)
           then {| clientcmdapi.Contexts := clientcmdapi.Contexts config;
                   clientcmdapi.CurrentContext := entry.1 |}
           else config)
        config (range (clientcmdapi.Contexts config)).
End Kubeconfig.

(** * Vocabulary of the statements *)

(** A condition of type "Ready" whose status is not "True". *)
Definition not_ready (condition : v1.NodeCondition) : Prop :=
  v1.NodeCondition_Type condition = "Ready"
  /\ v1.NodeCondition_Status condition <> "True".

(** A node fails when one of its conditions is [not_ready]. *)
Definition node_fails (node : v1.Node) : Prop :=
  Exists not_ready (v1.NodeStatus_Conditions (v1.Node_Status node)).

Definition not_ready_verdict (Name : string) : TestStatus :=
  {| Status := false; Info := "Node " +:+ Name +:+ " is not ready" +:+ nl; Error := None |}.

(** The pods of a listing whose phase is not exactly "Running". *)
Definition notRunning (items : list v1.Pod) : list v1.Pod :=
  filter (fun pod => v1.PodStatus_Phase (v1.Pod_Status pod) <> "Running") items.

(** The zone values that occur in a node list. *)
Definition zone_of_some (nodes : list Node) (zone : string) : Prop :=
  exists node, node ∈ nodes /\ Zone node = zone.

(** Quantities for the examples: what the library answers for "250m", "500m",
    "512Mi" and "1Gi". *)
Definition q250m : resource.Quantity :=
  {| resource.IsZero := false; resource.MilliValue := 250; resource.Value := 1;
     resource.String := "250m" |}.
Definition q500m : resource.Quantity :=
  {| resource.IsZero := false; resource.MilliValue := 500; resource.Value := 1;
     resource.String := "500m" |}.
Definition q512Mi : resource.Quantity :=
  {| resource.IsZero := false; resource.MilliValue := 536870912000;
     resource.Value := 536870912; resource.String := "512Mi" |}.
Definition q1Gi : resource.Quantity :=
  {| resource.IsZero := false; resource.MilliValue := 1073741824000;
     resource.Value := 1073741824; resource.String := "1Gi" |}.

(** The custom resource was read, carries a [status] mapping, and the
    mapping decodes to [clusterStatus]. *)
Definition decodes_to (json_Unmarshal : json -> error + ClusterStatus)
    (kc : K8sClient) (clusterStatus : ClusterStatus) : Prop :=
  exists customResource status,
    Resource_Get (DynamicClient kc) redisclusters redis_namespace customResourceName
    = inr customResource
    /\ field "status" customResource = Some (JObject status)
    /\ json_Unmarshal (JObject status) = inr clusterStatus.

(** The document has no [status] entry. *)
Definition status_missing (customResource : list (string * json)) : Prop :=
  field "status" customResource = None.

(** The [status] entry is there and does not decode: it is not a mapping, or
    the mapping does not fit the [ClusterStatus] schema. *)
Definition status_fails_to_decode (json_Unmarshal : json -> error + ClusterStatus)
    (customResource : list (string * json)) : Prop :=
  exists value,
    field "status" customResource = Some value
    /\ ((forall status, value <> JObject status)
        \/ exists err, json_Unmarshal value = inl err).

(** The pod of a data-store node is found, with a container to read. *)
Definition resolves (kc : K8sClient) (node : Node) : Prop :=
  exists pod,
    Pods_Get (Client kc) redis_namespace (PodName node) = inr pod
    /\ v1.PodSpec_Containers (v1.Pod_Spec pod) <> [].

(** The report the resolver builds from a decoded status and an enrichment
    map. *)
Definition report_of (clusterStatus : ClusterStatus)
    (podDetails : gmap string missingDetails) (status : RedisStatus) : Prop :=
  let cluster := ClusterStatus_Cluster clusterStatus in
  PrimariesConfigured status = NumberOfPrimaries cluster
  /\ ReplicasConfigured status = MaxReplicationFactor cluster
  /\ PodStatus status = bool_decide (NumberOfPods cluster = NumberOfPodsReady cluster)
  /\ ClusterState status = bool_decide (Cluster_Status cluster = "OK")
  /\ ClusterSlotsOk status = Z.of_nat (length (Nodes cluster))
  /\ ClusterKnownNodes status = Z.of_nat (length (Nodes cluster))
  /\ ClusterSize status = NumberOfPods cluster
  /\ ClusterSlotsPfail status = 0
  /\ ClusterSlotsFail status = 0
  /\ NumberActiveZones status = activeZones (Nodes cluster)
  /\ RedisNodeDetails status = Nodes cluster
  /\ NumberZonesPrimaries status = 1
  /\ NumberPrimariesInZone status = NumberOfPrimaries cluster
  /\ PodDetails status = podDetails.

(** The panic of [s[0]] on an empty slice. *)
Definition index_out_of_range : string :=
  "runtime error: index out of range [0] with length 0".

(** * Example clusters *)

(** A reference decoder for the examples. It follows [encoding/json] on
    documents that spell the keys of the [ClusterStatus] schema as the struct
    tags do and whose time stamps are RFC 3339 text: an absent or null entry
    leaves the zero value, an entry of another shape is a decode error. It
    does not fold the case of a key and does not parse a time stamp, which
    the library does; the statements below hold for every decoder. *)
Definition and_then {A B} (r : error + A) (k : A -> error + B) : error + B :=
  match r with
  | inl err => inl err
  | inr a => k a
  end.

Fixpoint traverse {A B} (f : A -> error + B) (l : list A) : error + list B :=
  match l with
  | [] => inr []
  | x :: rest =>
      and_then (f x) (fun y => and_then (traverse f rest) (fun ys => inr (y :: ys)))
  end.

Definition mismatch (Go_type : string) : error :=
  "json: cannot unmarshal value into Go value of type " +:+ Go_type.

Definition as_string (value : option json) : error + string :=
  match value with
  | None | Some JNull => inr ""
  | Some (JString s) => inr s
  | Some _ => inl (mismatch "string")
  end.

Definition as_int (value : option json) : error + Z :=
  match value with
  | None | Some JNull => inr 0
  | Some (JNumber n) => inr n
  | Some _ => inl (mismatch "int")
  end.

Definition as_list {A} (Go_type : string) (f : json -> error + A) (value : option json)
  : error + list A :=
  match value with
  | None | Some JNull => inr []
  | Some (JArray items) => traverse f items
  | Some _ => inl (mismatch Go_type)
  end.

Definition as_fields (Go_type : string) (value : option json) : error + list (string * json) :=
  match value with
  | None | Some JNull => inr []
  | Some (JObject fields) => inr fields
  | Some _ => inl (mismatch Go_type)
  end.

Definition decodeNode (value : json) : error + Node :=
  and_then (as_fields "k8s.Node" (Some value)) (fun f =>
  and_then (as_string (field "id" f)) (fun id =>
  and_then (as_string (field "ip" f)) (fun ip =>
  and_then (as_string (field "podName" f)) (fun podName =>
  and_then (as_string (field "port" f)) (fun port =>
  and_then (as_string (field "role" f)) (fun role =>
  and_then (as_list "[]string" (fun v => as_string (Some v)) (field "slots" f)) (fun slots =>
  and_then (as_string (field "primaryRef" f)) (fun primaryRef =>
  and_then (as_string (field "zone" f)) (fun zone =>
  inr {| ID := id; IP := ip; PodName := podName; Port := port; Role := role;
         Slots := slots; PrimaryRef := primaryRef; Zone := zone |}))))))))).

Definition decodeCondition (value : json) : error + Condition :=
  and_then (as_fields "k8s.Condition" (Some value)) (fun f =>
  and_then (as_string (field "lastProbeTime" f)) (fun lastProbeTime =>
  and_then (as_string (field "lastTransitionTime" f)) (fun lastTransitionTime =>
  and_then (as_string (field "message" f)) (fun message =>
  and_then (as_string (field "reason" f)) (fun reason =>
  and_then (as_string (field "status" f)) (fun status =>
  and_then (as_string (field "type" f)) (fun type =>
  inr {| LastProbeTime := lastProbeTime; LastTransitionTime := lastTransitionTime;
         Message := message; Reason := reason; Condition_Status := status;
         Condition_Type := type |}))))))).

Definition decodeReplicas (value : option json) : error + gmap string Z :=
  and_then (as_fields "map[string]int" value) (fun f =>
  and_then (traverse (fun kv => and_then (as_int (Some kv.2)) (fun n => inr (kv.1, n))) f)
           (fun pairs => inr (foldl (fun m kv => <[kv.1 := kv.2]> m) ∅ pairs))).

Definition decodeCluster (value : option json) : error + Cluster :=
  and_then (as_fields "k8s.Cluster" value) (fun f =>
  and_then (as_string (field "labelSelectorPath" f)) (fun labelSelectorPath =>
  and_then (as_int (field "maxReplicationFactor" f)) (fun maxReplicationFactor =>
  and_then (as_int (field "minReplicationFactor" f)) (fun minReplicationFactor =>
  and_then (as_list "[]k8s.Node" decodeNode (field "nodes" f)) (fun nodes =>
  and_then (as_int (field "numberOfPods" f)) (fun numberOfPods =>
  and_then (as_int (field "numberOfPodsReady" f)) (fun numberOfPodsReady =>
  and_then (as_int (field "numberOfPrimaries" f)) (fun numberOfPrimaries =>
  and_then (as_int (field "numberOfPrimariesReady" f)) (fun numberOfPrimariesReady =>
  and_then (as_int (field "numberOfRedisNodesRunning" f)) (fun numberOfRedisNodesRunning =>
  and_then (decodeReplicas (field "numberOfReplicasPerPrimary" f)) (fun replicas =>
  and_then (as_string (field "status" f)) (fun status =>
  inr {| LabelSelectorPath := labelSelectorPath;
         MaxReplicationFactor := maxReplicationFactor;
         MinReplicationFactor := minReplicationFactor;
         Nodes := nodes;
         NumberOfPods := numberOfPods;
         NumberOfPodsReady := numberOfPodsReady;
         NumberOfPrimaries := numberOfPrimaries;
         NumberOfPrimariesReady := numberOfPrimariesReady;
         NumberOfRedisNodesRunning := numberOfRedisNodesRunning;
         NumberOfReplicasPerPrimary := replicas;
         Cluster_Status := status |})))))))))))).

Definition decodeClusterStatus (value : json) : error + ClusterStatus :=
  and_then (as_fields "k8s.ClusterStatus" (Some value)) (fun f =>
  and_then (decodeCluster (field "cluster" f)) (fun cluster =>
  and_then (as_list "[]k8s.Condition" decodeCondition (field "conditions" f)) (fun conditions =>
  and_then (as_string (field "startTime" f)) (fun startTime =>
  inr {| ClusterStatus_Cluster := cluster; Conditions := conditions;
         StartTime := startTime |})))).

(** A small cluster: two workers, the two pods of the data store, a finished
    job and a pending pod. *)
Definition worker (Name ready : string) : v1.Node :=
  {| v1.Node_Name := Name;
     v1.Node_Status :=
       {| v1.NodeStatus_Conditions :=
            [ {| v1.NodeCondition_Type := "MemoryPressure";
                 v1.NodeCondition_Status := "False" |};
              {| v1.NodeCondition_Type := "Ready";
                 v1.NodeCondition_Status := ready |} ] |} |}.

Definition container (Name : string) (cpu memory : resource.Quantity) : v1.Container :=
  {| v1.Container_Name := Name;
     v1.Container_Resources :=
       {| v1.Requests := <[v1.ResourceCPU := cpu]> (<[v1.ResourceMemory := memory]> ∅) |} |}.

Definition pod (Namespace Name NodeName Phase : string) (containers : list v1.Container)
  : v1.Pod :=
  {| v1.Pod_Name := Name;
     v1.Pod_Namespace := Namespace;
     v1.Pod_Spec := {| v1.PodSpec_NodeName := NodeName; v1.PodSpec_Containers := containers |};
     v1.Pod_Status := {| v1.PodStatus_Phase := Phase |} |}.

Definition rediscluster_0 : v1.Pod :=
  pod redis_namespace "rediscluster-0" "worker-1" "Running" [container "redis-node" q500m q1Gi].
Definition rediscluster_1 : v1.Pod :=
  pod redis_namespace "rediscluster-1" "worker-2" "Running" [container "redis-node" q500m q1Gi].
Definition migrate_job : v1.Pod :=
  pod "default" "migrate-7xk2p" "worker-1" "Succeeded" [container "migrate" q250m q512Mi].
Definition web_0 : v1.Pod :=
  pod "default" "web-0" "" "Pending" [container "web" q250m q512Mi].

Definition metrics_of (Namespace Name containerName : string) (cpu memory : resource.Quantity)
  : metricsv1beta1.PodMetrics :=
  {| metricsv1beta1.PodMetrics_Name := Name;
     metricsv1beta1.PodMetrics_Namespace := Namespace;
     metricsv1beta1.Containers :=
       [ {| metricsv1beta1.ContainerMetrics_Name := containerName;
            metricsv1beta1.Usage :=
              <[v1.ResourceCPU := cpu]> (<[v1.ResourceMemory := memory]> ∅) |} ] |}.

Definition member (podName role zone : string) : json :=
  JObject [("id", JString ("id-" +:+ podName)); ("ip", JString "10.0.0.7");
           ("podName", JString podName); ("port", JString "6379");
           ("role", JString role); ("zone", JString zone)].

Definition status_document : json :=
  JObject
    [("cluster",
      JObject [("maxReplicationFactor", JNumber 1);
               ("minReplicationFactor", JNumber 1);
               ("nodes", JArray [member "rediscluster-0" "Primary" "zone-a";
                                 member "rediscluster-1" "Replica" "zone-b"]);
               ("numberOfPods", JNumber 2);
               ("numberOfPodsReady", JNumber 2);
               ("numberOfPrimaries", JNumber 1);
               ("numberOfPrimariesReady", JNumber 1);
               ("numberOfRedisNodesRunning", JNumber 2);
               ("status", JString "OK")]);
     ("startTime", JString "2024-05-02T09:30:00Z")].

Definition metadata : string * json :=
  ("metadata", JObject [("name", JString customResourceName);
                        ("namespace", JString redis_namespace)]).

(** The answers of a control plane that holds [pods], [podMetrics] and one
    custom resource. *)
Definition control_plane (nodes : error + list v1.Node) (pods : error + list v1.Pod)
    (podMetrics : error + list metricsv1beta1.PodMetrics)
    (customResource : error + list (string * json)) : K8sClient :=
  {| Client :=
       {| Nodes_List := nodes;
          Pods_List := fun namespace =>
            match pods with
            | inl err => inl err
            | inr items =>
                inr (filter (fun p => namespace = "" \/ v1.Pod_Namespace p = namespace) items)
            end;
          Pods_Get := fun namespace Name =>
            match pods with
            | inl err => inl err
            | inr items =>
                match filter (fun p => v1.Pod_Namespace p = namespace /\ v1.Pod_Name p = Name)
                             items with
                | found :: _ => inr found
                | [] => inl ("pods " +:+ Name +:+ " not found")
                end
            end |};
     DynamicClient := {| Resource_Get := fun _ _ _ => customResource |};
     MetricsClient := {| PodMetricses_List := fun _ => podMetrics |} |}.

Definition all_pods : list v1.Pod := [rediscluster_0; rediscluster_1; migrate_job; web_0].
Definition all_metrics : list metricsv1beta1.PodMetrics :=
  [metrics_of redis_namespace "rediscluster-0" "redis-node" q250m q512Mi;
   metrics_of redis_namespace "rediscluster-1" "redis-node" q500m q512Mi].

Definition kc_healthy : K8sClient :=
  control_plane (inr [worker "worker-1" "True"; worker "worker-2" "True"])
                (inr all_pods) (inr all_metrics)
                (inr [metadata; ("status", status_document)]).

Definition kc_degraded : K8sClient :=
  control_plane (inr [worker "worker-1" "True"; worker "worker-2" "False";
                      worker "worker-3" "Unknown"])
                (inr all_pods) (inr all_metrics)
                (inr [metadata; ("status", status_document)]).

(** The custom resource has no [status] yet. *)
Definition kc_no_status : K8sClient :=
  control_plane (inr [worker "worker-1" "True"]) (inr all_pods) (inr all_metrics)
                (inr [metadata]).

(** The pod of the second member of the data store is gone. *)
Definition kc_lost_pod : K8sClient :=
  control_plane (inr [worker "worker-1" "True"]) (inr [rediscluster_0; web_0])
                (inr all_metrics) (inr [metadata; ("status", status_document)]).

(** The pod listing, or the metrics snapshot, cannot be fetched. *)
Definition kc_pods_unreachable : K8sClient :=
  control_plane (inr []) (inl "connection refused") (inr all_metrics) (inr [metadata]).
Definition kc_metrics_unreachable : K8sClient :=
  control_plane (inr []) (inr all_pods) (inl "the server could not find the requested resource")
                (inr [metadata]).

(** What [status_document] decodes to. *)
Definition member_node (podName role zone : string) : Node :=
  {| ID := "id-" +:+ podName; IP := "10.0.0.7"; PodName := podName; Port := "6379";
     Role := role; Slots := []; PrimaryRef := ""; Zone := zone |}.

Definition status_decoded : ClusterStatus :=
  {| ClusterStatus_Cluster :=
       {| LabelSelectorPath := "";
          MaxReplicationFactor := 1;
          MinReplicationFactor := 1;
          Nodes := [member_node "rediscluster-0" "Primary" "zone-a";
                    member_node "rediscluster-1" "Replica" "zone-b"];
          NumberOfPods := 2;
          NumberOfPodsReady := 2;
          NumberOfPrimaries := 1;
          NumberOfPrimariesReady := 1;
          NumberOfRedisNodesRunning := 2;
          NumberOfReplicasPerPrimary := ∅;
          Cluster_Status := "OK" |};
     Conditions := [];
     StartTime := "2024-05-02T09:30:00Z" |}.

(** The pod usage one round of the aggregator's loop appends. *)
Definition podUsage_of (podMetricsMap : gmap string metricsv1beta1.PodMetrics)
    (pod : v1.Pod) : PodUsage :=
  {| PodUsage_PodName := v1.Pod_Name pod;
     PodUsage_Namespace := v1.Pod_Namespace pod;
     ContainerUsages :=
       match podMetricsMap !! podKey (v1.Pod_Namespace pod) (v1.Pod_Name pod) with
       | Some podMetrics =>
           containerUsages_of (v1.PodSpec_Containers (v1.Pod_Spec pod)) podMetrics
       | None => []
       end |}.

(** The [namespace/name] key of a metrics entry. *)
Definition metricsKey (podMetrics : metricsv1beta1.PodMetrics) : string :=
  podKey (metricsv1beta1.PodMetrics_Namespace podMetrics)
         (metricsv1beta1.PodMetrics_Name podMetrics).

(** One of the two listings the aggregator needs could not be fetched. *)
Definition fetch_fails (kc : K8sClient) : Prop :=
  (exists err, Pods_List (Client kc) "" = inl err)
  \/ (exists err, PodMetricses_List (MetricsClient kc) "" = inl err).

(** An exec channel that opens and whose stream then fails: the pod is gone. *)
Definition sys_stream_fails : Platform :=
  {| BuildConfigFromFlags := inr {| Host := "https://10.0.0.1:6443" |};
     NewSPDYExecutor := fun _ _ => None;
     Stream := fun _ _ => ("", "", Some "pods alertmanager-prometheus-alerts-0 not found") |}.

(** An exec channel that cannot be opened. *)
Definition sys_no_executor : Platform :=
  {| BuildConfigFromFlags := inr {| Host := "https://10.0.0.1:6443" |};
     NewSPDYExecutor := fun _ _ => Some "unable to load root certificates";
     Stream := fun _ _ => ("", "", None) |}.

(** Two metrics entries under one [namespace/name] key, in both orders. *)
Definition metrics_twice : list metricsv1beta1.PodMetrics :=
  [metrics_of redis_namespace "rediscluster-0" "redis-node" q250m q512Mi;
   metrics_of redis_namespace "rediscluster-0" "redis-node" q500m q512Mi].
Definition metrics_twice_swapped : list metricsv1beta1.PodMetrics :=
  [metrics_of redis_namespace "rediscluster-0" "redis-node" q500m q512Mi;
   metrics_of redis_namespace "rediscluster-0" "redis-node" q250m q512Mi].

Definition kc_twice : K8sClient :=
  control_plane (inr []) (inr [rediscluster_0]) (inr metrics_twice) (inr [metadata]).
Definition kc_twice_swapped : K8sClient :=
  control_plane (inr []) (inr [rediscluster_0]) (inr metrics_twice_swapped) (inr [metadata]).

(** The healthy cluster with both listings in another order. *)
Definition kc_healthy_reordered : K8sClient :=
  control_plane (inr [worker "worker-1" "True"; worker "worker-2" "True"])
                (inr [rediscluster_1; rediscluster_0; migrate_job; web_0])
                (inr [metrics_of redis_namespace "rediscluster-1" "redis-node" q500m q512Mi;
                      metrics_of redis_namespace "rediscluster-0" "redis-node" q250m q512Mi])
                (inr [metadata; ("status", status_document)]).

(** The events of a listing of one type. *)
Definition events_of_type (type : string) (items : list Event) : list Event :=
  filter (fun event => Event_Type event = type) items.

(** A node stripped of every condition that is not of type "Ready". *)
Definition Ready_only (node : v1.Node) : v1.Node :=
  {| v1.Node_Name := v1.Node_Name node;
     v1.Node_Status :=
       {| v1.NodeStatus_Conditions :=
            filter (fun condition => v1.NodeCondition_Type condition = "Ready")
                   (v1.NodeStatus_Conditions (v1.Node_Status node)) |} |}.

(** The verdict of a probe whose listing failed. *)
Definition listing_failed (err : error) : TestStatus :=
  {| Status := false; Info := ""; Error := Some err |}.

(** The further reads of the example cluster. *)
Definition core_of (events : error + list Event) (selected : error + list v1.Pod)
    (kargo : error + Service) : CoreV1Interface :=
  {| Events_List := fun _ => events;
     Namespaces_List := inr [ {| Namespace_Name := "default" |};
                              {| Namespace_Name := redis_namespace |} ];
     Services_Get := fun _ _ => kargo;
     Pods_List_selected := fun _ _ => selected |}.

Definition core_healthy : CoreV1Interface :=
  core_of (inr [ {| Event_Type := "Normal" |}; {| Event_Type := "Warning" |};
                 {| Event_Type := "Normal" |}; {| Event_Type := "Warning" |} ])
          (inr [rediscluster_0])
          (inr {| Service_Ingress := [ {| LoadBalancerIngress_IP := "192.0.2.10" |};
                                       {| LoadBalancerIngress_IP := "192.0.2.11" |} ] |}).

(** No pod has the selected name, the events cannot be listed, the service
    has no ingress yet. *)
Definition core_bare : CoreV1Interface :=
  core_of (inl "events is forbidden") (inr []) (inr {| Service_Ingress := [] |}).

(** What the enrichment join records for a pod name: the worker and the
    requests of the first container of the pod found under it. *)
Definition enrichment (kc : K8sClient) (Name : string) : option missingDetails :=
  match Pods_Get (Client kc) redis_namespace Name with
  | inr pod =>
      match v1.PodSpec_Containers (v1.Pod_Spec pod) with
      | container :: _ =>
          Some {| Worker := v1.PodSpec_NodeName (v1.Pod_Spec pod);
                  CPU := resource.String
                           (v1.Cpu (v1.Requests (v1.Container_Resources container)));
                  Memory := resource.String
                              (v1.Memory (v1.Requests (v1.Container_Resources container))) |}
      | [] => None
      end
  | inl _ => None
  end.

(** The healthy cluster when the custom resource cannot be read. *)
Definition kc_no_resource : K8sClient :=
  control_plane (inr [worker "worker-1" "True"]) (inr all_pods) (inr all_metrics)
                (inl "redisclusters.db.ibm.com node-for-redis not found").

(** The degraded cluster with the conditions other than "Ready" removed. *)
Definition kc_degraded_Ready_only : K8sClient :=
  control_plane (inr (Ready_only <$> [worker "worker-1" "True"; worker "worker-2" "False";
                                      worker "worker-3" "Unknown"]))
                (inr all_pods) (inr all_metrics)
                (inr [metadata; ("status", status_document)]).

(** The line the aggregator prints for a pod without metrics. *)
Definition no_metrics_line (pod : v1.Pod) : string :=
  "No metrics available for pod: "
  +:+ podKey (v1.Pod_Namespace pod) (v1.Pod_Name pod) +:+ nl.

(** The pod has no entry in a metrics listing. *)
Definition without_metrics (podMetricsList : list metricsv1beta1.PodMetrics)
    (pod : v1.Pod) : Prop :=
  podKey (v1.Pod_Namespace pod) (v1.Pod_Name pod) ∉ metricsKey <$> podMetricsList.

(** The usage of one container against one metrics entry of its name: the
    used quantities over the requested ones, a quantity that is not listed
    counting as zero. *)
Definition containerUsage_of (container : v1.Container)
    (containerMetrics : metricsv1beta1.ContainerMetrics) : ContainerUsage :=
  {| ContainerUsage_Name := v1.Container_Name container;
     CPUUsage :=
       GetCPUUsagePercentage
         (v1.get (metricsv1beta1.Usage containerMetrics) v1.ResourceCPU)
         (v1.get (v1.Requests (v1.Container_Resources container)) v1.ResourceCPU);
     MemoryUsage :=
       GetMemoryUsagePercentage
         (v1.get (metricsv1beta1.Usage containerMetrics) v1.ResourceMemory)
         (v1.get (v1.Requests (v1.Container_Resources container)) v1.ResourceMemory) |}.

(** The panic of a method call on the nil executor. *)
Definition nil_dereference : string :=
  "runtime error: invalid memory address or nil pointer dereference".

(** The client configuration is built and an executor is created for the
    request of the command. *)
Definition exec_opens (sys : Platform) (namespace pod container command : string) : Prop :=
  exists config,
    BuildConfigFromFlags sys = inr config
    /\ NewSPDYExecutor sys config (exec_request namespace pod container command) = None.

(** An exec channel that works: the remote side answers with the name of the
    pod and the command it ran. *)
Definition sys_ok : Platform :=
  {| BuildConfigFromFlags := inr {| Host := "https://10.0.0.1:6443" |};
     NewSPDYExecutor := fun _ _ => None;
     Stream := fun _ request =>
       (Request_Name request +:+ "$ "
        +:+ default "" (last (Command (Request_Options request))), "", None) |}.

(** No kubeconfig: the client configuration cannot be built. *)
Definition sys_no_config : Platform :=
  {| BuildConfigFromFlags := inl "invalid configuration: no configuration has been provided";
     NewSPDYExecutor := fun _ _ => None;
     Stream := fun _ _ => ("", "", None) |}.

(** An alert as the alert manager reports it, and a decoder for the
    examples that knows this one output. *)
Definition firing : origAlert :=
  {| Labels := <["alertname" := "A"]> (<["severity" := "critical"]> (<["pod" := "p1"]> ∅));
     Annotations := <["summary" := "S"]> ∅;
     origAlert_StartsAt := "t1";
     EndsAt := "" |}.

Definition decode_alerts (stdout : string) : list origAlert * option error :=
  if bool_decide (stdout = "alertmanager-prometheus-alerts-0$ " +:+ amtool_command)
  then ([firing], None)
  else ([], Some "unexpected end of JSON input").

(** A kubeconfig with three contexts on two clusters. *)
Definition kubeconfig_contexts : gmap string clientcmdapi.Context :=
  <["dev-admin" := {| clientcmdapi.Cluster := "dev" |}]>
    (<["prod-admin" := {| clientcmdapi.Cluster := "prod" |}]>
       (<["prod-viewer" := {| clientcmdapi.Cluster := "prod" |}]> ∅)).

Definition kubeconfig_demo : clientcmdapi.Config :=
  {| clientcmdapi.Contexts := kubeconfig_contexts;
     clientcmdapi.CurrentContext := "prod-admin" |}.

(** A [float64] that is no number a percentage can be: an infinity or NaN. *)
Definition infinite_or_NaN (x : float64) : Prop :=
  x = S754_nan \/ exists sign, x = S754_infinity sign.

(** What the library answers for "10E", ten exa-units: the quantity is not
    zero, and its value and milli-value do not fit an [int64], for which
    [Value] and [MilliValue] answer 0. *)
Definition q10E : resource.Quantity :=
  {| resource.IsZero := false; resource.MilliValue := 0; resource.Value := 0;
     resource.String := "10E" |}.

(** * Properties *)

(** ** Go runtime *)

Lemma wrap64_small (z : Z) : - 2 ^ 63 <= z < 2 ^ 63 -> wrap64 z = z.
Proof.
  intros Hz. unfold wrap64.
  rewrite Z.mod_small; lia.
Qed.

(** ** HealthCheckEngine: node readiness *)

Lemma CheckNodes_conditions_cases (Name : string) (conditions : list v1.NodeCondition) :
  (CheckNodes_conditions Name conditions = None /\ ~ Exists not_ready conditions)
  \/ (CheckNodes_conditions Name conditions = Some (not_ready_verdict Name)
      /\ Exists not_ready conditions).
Proof.
  induction conditions as [|condition rest IH]; simpl.
  - left. split; [done|]. by intros ?%Exists_nil.
  - destruct (bool_decide (v1.NodeCondition_Type condition = "Ready")) eqn:Ht;
      [destruct (bool_decide (v1.NodeCondition_Status condition = "True")) eqn:Hs|]; simpl.
    + apply bool_decide_eq_true in Hs.
      destruct IH as [[-> Hno]|[-> Hex]]; [left|right]; split; try done.
      * intros [[_ Hne]|Hex]%Exists_cons; [by apply Hne | by apply Hno].
      * by apply Exists_cons_tl.
    + apply bool_decide_eq_true in Ht. apply bool_decide_eq_false in Hs.
      right. split; [done|]. by apply Exists_cons_hd.
    + apply bool_decide_eq_false in Ht.
      destruct IH as [[-> Hno]|[-> Hex]]; [left|right]; split; try done.
      * intros [[Heq _]|Hex]%Exists_cons; [by apply Ht | by apply Hno].
      * by apply Exists_cons_tl.
Qed.

Lemma CheckNodes_items_pass (items : list v1.Node) :
  Forall (fun node => ~ node_fails node) items ->
  CheckNodes_items items = {| Status := true; Info := "All nodes are ready"; Error := None |}.
Proof.
  induction 1 as [|node rest Hok _ IH]; simpl; [done|].
  destruct (CheckNodes_conditions_cases (v1.Node_Name node)
              (v1.NodeStatus_Conditions (v1.Node_Status node))) as [[-> _]|[_ Hex]]; [done|].
  by destruct Hok.
Qed.

Lemma CheckNodes_items_first_failing (before after : list v1.Node) (node : v1.Node) :
  Forall (fun n => ~ node_fails n) before ->
  node_fails node ->
  CheckNodes_items (before ++ node :: after) = not_ready_verdict (v1.Node_Name node).
Proof.
  intros Hbefore Hfails.
  induction Hbefore as [|n rest Hok _ IH]; simpl.
  - by destruct (CheckNodes_conditions_cases (v1.Node_Name node)
                   (v1.NodeStatus_Conditions (v1.Node_Status node))) as [[_ Hno]|[-> _]].
  - by destruct (CheckNodes_conditions_cases (v1.Node_Name n)
                   (v1.NodeStatus_Conditions (v1.Node_Status n))) as [[-> _]|[_ Hex]].
Qed.

(** Every listing either has no failing node or splits at its first one. *)
Lemma first_failing_node (items : list v1.Node) :
  Forall (fun node => ~ node_fails node) items
  \/ exists before node after,
       items = before ++ node :: after
       /\ Forall (fun n => ~ node_fails n) before /\ node_fails node.
Proof.
  induction items as [|node rest IH]; [by left|].
  destruct (CheckNodes_conditions_cases "" (v1.NodeStatus_Conditions (v1.Node_Status node)))
    as [[_ Hno]|[_ Hex]].
  - destruct IH as [Hall|(before & n & after & -> & Hbefore & Hn)].
    + left. by constructor.
    + right. exists (node :: before), n, after. split_and!; [done| by constructor | done].
  - right. by exists [], node, rest.
Qed.

(** C5. For every node listing, [CheckNodes] passes if and only if no node of
    the listing has a condition of type "Ready" whose status is not "True";
    when some node fails, the verdict is a failure whose detail names the
    first failing node of the listing. *)
Theorem CheckNodes_passed_iff_all_ready (kc : K8sClient) (items : list v1.Node) :
  Nodes_List (Client kc) = inr items ->
  (Status (CheckNodes kc) = true
   <-> forall node, node ∈ items ->
       forall condition, condition ∈ v1.NodeStatus_Conditions (v1.Node_Status node) ->
       ~ (v1.NodeCondition_Type condition = "Ready"
          /\ v1.NodeCondition_Status condition <> "True"))
  /\ (forall before node after,
        items = before ++ node :: after ->
        (forall n, n ∈ before -> ~ node_fails n) ->
        node_fails node ->
        CheckNodes kc
        = {| Status := false;
             Info := "Node " +:+ v1.Node_Name node +:+ " is not ready" +:+ nl;
             Error := None |}).
Proof.
  intros Hlist. unfold CheckNodes. rewrite Hlist. split.
  - destruct (first_failing_node items)
      as [Hall|(before & node & after & -> & Hbefore & Hnode)].
    + rewrite CheckNodes_items_pass by done. split; [|done].
      intros _ node Hin condition Hc Hbad.
      rewrite Forall_forall in Hall. apply (Hall node Hin).
      apply Exists_exists. by exists condition.
    + rewrite CheckNodes_items_first_failing by done. split; [done|].
      intros Hall. exfalso.
      apply Exists_exists in Hnode as (condition & Hc & Hbad).
      apply (Hall node ltac:(set_solver) condition Hc Hbad).
  - intros before node after -> Hbefore Hnode.
    apply CheckNodes_items_first_failing; [|done].
    by apply Forall_forall.
Qed.

Lemma CheckNodes_passed_iff_all_ready_witness :
  Nodes_List (Client kc_degraded)
  = inr [worker "worker-1" "True"; worker "worker-2" "False"; worker "worker-3" "Unknown"]
  /\ Status (CheckNodes kc_degraded) = false
  /\ CheckNodes kc_degraded
     = {| Status := false; Info := "Node worker-2 is not ready" +:+ nl; Error := None |}.
Proof.
  split; [reflexivity|]. split; [reflexivity|].
  refine (proj2 (CheckNodes_passed_iff_all_ready kc_degraded _ eq_refl)
            [worker "worker-1" "True"] (worker "worker-2" "False")
            [worker "worker-3" "Unknown"] eq_refl _ _).
  - intros n Hn Hfails. apply list_elem_of_singleton in Hn. subst n.
    unfold node_fails in Hfails. simpl in Hfails.
    apply Exists_cons in Hfails as [[Ht _]|Hfails]; [discriminate|].
    apply Exists_cons in Hfails as [[_ Hs]|Hfails]; [by apply Hs|].
    by apply Exists_nil in Hfails.
  - unfold node_fails. simpl. apply Exists_cons_tl, Exists_cons_hd. by split.
Defined.

(** ** HealthCheckEngine: pod phase *)

Lemma CheckPods_count_from (items : list v1.Pod) (start : Z) :
  0 <= start ->
  start + Z.of_nat (length items) <= max_int ->
  foldl (fun notRunningCount pod =>
           if bool_decide (v1.PodStatus_Phase (v1.Pod_Status pod) = "Running")
           then notRunningCount
           else wrap64 (notRunningCount + 1))
        start items
  = start + Z.of_nat (length (notRunning items)).
Proof.
  unfold max_int, notRunning.
  revert start. induction items as [|pod rest IH]; intros start Hstart Hmax; simpl in *.
  - lia.
  - rewrite filter_cons. case_bool_decide as Hphase.
    + rewrite decide_False by (intros Hne; by apply Hne).
      apply IH; lia.
    + rewrite decide_True by done. simpl.
      rewrite wrap64_small by lia.
      rewrite IH by lia. lia.
Qed.

Lemma CheckPods_count_spec (items : list v1.Pod) :
  Z.of_nat (length items) <= max_int ->
  CheckPods_count items = Z.of_nat (length (notRunning items)).
Proof.
  intros Hmax. unfold CheckPods_count.
  rewrite CheckPods_count_from; lia.
Qed.

(** C6. For every pod listing (a Go slice: at most [max_int] items), the
    counter of [CheckPods] is the number of pods whose phase is not exactly
    "Running", a pod in phase "Succeeded" being one of them; the probe passes
    if and only if that number is zero, and otherwise fails with the number in
    its detail message. *)
Theorem CheckPods_counts_not_running (kc : K8sClient) (items : list v1.Pod) :
  Pods_List (Client kc) "" = inr items ->
  Z.of_nat (length items) <= max_int ->
  CheckPods_count items = Z.of_nat (length (notRunning items))
  /\ (forall pod, pod ∈ items ->
       v1.PodStatus_Phase (v1.Pod_Status pod) = "Succeeded" -> pod ∈ notRunning items)
  /\ (Status (CheckPods kc) = true <-> length (notRunning items) = 0%nat)
  /\ (length (notRunning items) = 0%nat ->
       CheckPods kc = {| Status := true; Info := "All pods are running"; Error := None |})
  /\ (length (notRunning items) <> 0%nat ->
       CheckPods kc
       = {| Status := false;
            Info := fmt_d (Z.of_nat (length (notRunning items)))
                    +:+ " pods are in not running state" +:+ nl;
            Error := None |}).
Proof.
  intros Hlist Hmax.
  pose proof (CheckPods_count_spec items Hmax) as Hcount.
  unfold CheckPods. rewrite Hlist. simpl. rewrite Hcount.
  split_and!.
  - done.
  - intros pod Hin Hphase. unfold notRunning.
    apply list_elem_of_filter. split; [|done]. by rewrite Hphase.
  - case_bool_decide; simpl; split; intros; (done || lia).
  - intros Hzero. rewrite Hzero. done.
  - intros Hnz. rewrite bool_decide_eq_true_2 by lia. done.
Qed.

Lemma CheckPods_counts_not_running_witness :
  Pods_List (Client kc_healthy) "" = inr all_pods
  /\ Z.of_nat (length all_pods) <= max_int
  /\ CheckPods_count all_pods = 2
  /\ migrate_job ∈ notRunning all_pods
  /\ Status (CheckPods kc_healthy) = false.
Proof.
  assert (Hmax : Z.of_nat (length all_pods) <= max_int) by (vm_compute; discriminate).
  destruct (CheckPods_counts_not_running kc_healthy all_pods eq_refl Hmax)
    as (Hcount & Hsucceeded & Hpass & _ & Hfail).
  split_and!; [reflexivity | exact Hmax | exact Hcount | |].
  - apply Hsucceeded; [|reflexivity].
    apply list_elem_of_further, list_elem_of_further, list_elem_of_here.
  - rewrite Hfail; [reflexivity | discriminate].
Defined.

(** ** ResourceUsageAggregator: the percentages *)

Example half_of_the_cpu_request :
  GetCPUUsagePercentage q250m q500m = float64_of_int 50.
Proof. reflexivity. Qed.

Example half_of_the_memory_request :
  GetMemoryUsagePercentage q512Mi q1Gi = float64_of_int 50.
Proof. reflexivity. Qed.

Lemma division_by_zero_is_no_number (x : float64) :
  infinite_or_NaN (float64_mul (float64_div x (float64_of_int 0)) (float64_of_int 100)).
Proof.
  unfold infinite_or_NaN.
  destruct x as [sign|sign| |sign m e]; cbn; eauto.
Qed.

(** C7, where the code departs from it. For every used quantity and every
    request quantity that is not zero: when the request's milli-value is 0
    the CPU percentage is an infinity or NaN, and when its value is 0 so is
    the memory percentage; the library answers 0 for both on a request beyond
    the range of an [int64], such as "10E". (For a zero request both
    percentages are exactly 0, as the claim says.) *)
Theorem percentage_of_a_request_beyond_int64 (usage request : resource.Quantity) :
  resource.IsZero request = false ->
  (resource.MilliValue request = 0 ->
   infinite_or_NaN (GetCPUUsagePercentage usage request))
  /\ (resource.Value request = 0 ->
      infinite_or_NaN (GetMemoryUsagePercentage usage request)).
Proof.
  intros Hnonzero.
  unfold GetCPUUsagePercentage, GetMemoryUsagePercentage. rewrite Hnonzero.
  split; intros ->; apply division_by_zero_is_no_number.
Qed.

Lemma percentage_of_a_request_beyond_int64_witness :
  resource.IsZero q10E = false
  /\ resource.MilliValue q10E = 0
  /\ resource.Value q10E = 0
  /\ infinite_or_NaN (GetCPUUsagePercentage q250m q10E)
  /\ infinite_or_NaN (GetMemoryUsagePercentage q512Mi q10E).
Proof.
  split; [reflexivity|]. split; [reflexivity|]. split; [reflexivity|].
  split.
  - exact (proj1 (percentage_of_a_request_beyond_int64 q250m q10E eq_refl) eq_refl).
  - exact (proj2 (percentage_of_a_request_beyond_int64 q512Mi q10E eq_refl) eq_refl).
Defined.

Example cpu_of_a_ten_exa_request :
  GetCPUUsagePercentage q250m q10E = S754_infinity false
  /\ GetCPUUsagePercentage resource.zero q10E = S754_nan.
Proof. split; reflexivity. Qed.

Example zero_request_is_zero_percent :
  GetCPUUsagePercentage q250m resource.zero = float64_zero
  /\ GetMemoryUsagePercentage q512Mi resource.zero = float64_zero.
Proof. split; reflexivity. Qed.

(** ** RedisClusterStatusResolver: active zones *)

Lemma zoneMap_dom_from (nodes : list Node) (zoneMap : gmap string bool) :
  dom (foldl (fun zoneMap node => <[Zone node := true]> zoneMap) zoneMap nodes)
  = dom zoneMap ∪ list_to_set (Zone <$> nodes).
Proof.
  revert zoneMap. induction nodes as [|node rest IH]; intros zoneMap; simpl.
  - set_solver.
  - rewrite IH, dom_insert_L. set_solver.
Qed.

Lemma zoneMap_of_dom (nodes : list Node) :
  dom (zoneMap_of nodes) = list_to_set (Zone <$> nodes).
Proof. unfold zoneMap_of. rewrite zoneMap_dom_from, dom_empty_L. set_solver. Qed.

Lemma activeZones_distinct (nodes : list Node) (zones : list string) :
  NoDup zones ->
  (forall zone, zone ∈ zones <-> zone_of_some nodes zone) ->
  activeZones nodes = Z.of_nat (length zones).
Proof.
  intros Hnodup Hzones. unfold activeZones. f_equal.
  rewrite <- size_dom, zoneMap_of_dom.
  rewrite <- (size_list_to_set (C := gset string) zones Hnodup).
  f_equal. apply set_eq. intros zone.
  rewrite !elem_of_list_to_set, Hzones, list_elem_of_fmap.
  unfold zone_of_some. naive_solver.
Qed.

(** ** RedisClusterStatusResolver: the enrichment join *)

Lemma PodDetails_loop_resolved (kc : K8sClient) (nodeList : list Node)
    (podDetails : gmap string missingDetails) (out : list string) :
  Forall (resolves kc) nodeList ->
  exists podDetails',
    PodDetails_loop kc nodeList podDetails out = (Returned podDetails', out)
    /\ dom podDetails' = dom podDetails ∪ list_to_set (PodName <$> nodeList).
Proof.
  intros Hall. revert podDetails.
  induction Hall as [|node rest (pod & Hget & Hcontainers) _ IH]; intros podDetails.
  - exists podDetails. split; [done|]. set_solver.
  - cbn [PodDetails_loop]. rewrite Hget. cbn [Get_result].
    destruct (v1.PodSpec_Containers (v1.Pod_Spec pod)) as [|container others] eqn:Hc; [done|].
    unfold bind at 1. cbn [ret]. unfold bind at 1, index. cbn [lookup list_lookup ret].
    edestruct IH as (podDetails' & -> & Hdom).
    exists podDetails'. split; [done|].
    rewrite Hdom, dom_insert_L. set_solver.
Qed.

Lemma PodDetails_loop_lookup_failure (kc : K8sClient) (nodeList : list Node)
    (podDetails : gmap string missingDetails) (out : list string)
    (node : Node) (err : error) :
  node ∈ nodeList ->
  Pods_Get (Client kc) redis_namespace (PodName node) = inl err ->
  exists out', PodDetails_loop kc nodeList podDetails out = (Panicked index_out_of_range, out').
Proof.
  intros Hin Hget. revert podDetails out.
  induction nodeList as [|head rest IH]; intros podDetails out; [by apply elem_of_nil in Hin|].
  cbn [PodDetails_loop].
  destruct (Pods_Get (Client kc) redis_namespace (PodName head)) as [e|pod] eqn:Hhead;
    cbn [Get_result].
  - eexists. reflexivity.
  - destruct (v1.PodSpec_Containers (v1.Pod_Spec pod)) as [|container others] eqn:Hc.
    + eexists. unfold bind at 1. cbn [ret]. unfold bind at 1, index. reflexivity.
    + unfold bind at 1. cbn [ret]. unfold bind at 1, index.
      cbn [lookup list_lookup ret].
      apply IH. apply elem_of_cons in Hin as [->|Hin]; [congruence | done].
Qed.

Example status_that_is_no_mapping :
  NestedMap [metadata; ("status", JString "Pending")] "status"
  = (None, false,
     Some ".status accessor error: Pending is of the type string, expected map[string]interface{}").
Proof. reflexivity. Qed.

Example status_document_decodes :
  decodeClusterStatus status_document = inr status_decoded.
Proof. reflexivity. Qed.

Lemma healthy_cluster_decodes :
  decodes_to decodeClusterStatus kc_healthy status_decoded.
Proof. eexists _, _. split_and!; reflexivity. Defined.

Lemma lost_pod_cluster_decodes :
  decodes_to decodeClusterStatus kc_lost_pod status_decoded.
Proof. eexists _, _. split_and!; reflexivity. Defined.

Example healthy_cluster_nodes_ready :
  CheckNodes kc_healthy = {| Status := true; Info := "All nodes are ready"; Error := None |}.
Proof. reflexivity. Qed.

Example degraded_cluster_names_first_node :
  Info (CheckNodes kc_degraded) = "Node worker-2 is not ready" +:+ nl.
Proof. reflexivity. Qed.

Example two_pods_not_running :
  Info (CheckPods kc_healthy) = "2 pods are in not running state" +:+ nl.
Proof. vm_compute. reflexivity. Qed.

(** ** RedisClusterStatusResolver: the outcomes of [GetRedisStatus] *)

(** Once the status decodes, the resolver does what the enrichment join does
    and, when the join returns, builds the report around its map. *)
Lemma GetRedisStatus_decoded (json_Unmarshal : json -> error + ClusterStatus)
    (kc : K8sClient) (clusterStatus : ClusterStatus) (out : list string) :
  decodes_to json_Unmarshal kc clusterStatus ->
  match PodDetails_loop kc (Nodes (ClusterStatus_Cluster clusterStatus)) ∅ out with
  | (Returned podDetails, out') =>
      exists status,
        GetRedisStatus json_Unmarshal kc out = (Returned status, out')
        /\ report_of clusterStatus podDetails status
  | (Fatal msg, out') => GetRedisStatus json_Unmarshal kc out = (Fatal msg, out')
  | (Panicked msg, out') => GetRedisStatus json_Unmarshal kc out = (Panicked msg, out')
  end.
Proof.
  intros (customResource & status & Hget & Hfield & Hdecode).
  unfold GetRedisStatus, NestedMap. rewrite Hget, Hfield. cbn.
  unfold bind, ret. rewrite Hdecode.
  destruct (PodDetails_loop kc (Nodes (ClusterStatus_Cluster clusterStatus)) ∅ out)
    as [[podDetails|msg|msg] out']; [|done..].
  eexists. split; [reflexivity|]. by repeat split.
Qed.

(** A missing or undecodable status ends in [log.Fatalf]. *)
Lemma GetRedisStatus_undecodable (json_Unmarshal : json -> error + ClusterStatus)
    (kc : K8sClient) (customResource : list (string * json)) (out : list string) :
  Resource_Get (DynamicClient kc) redisclusters redis_namespace customResourceName
  = inr customResource ->
  status_missing customResource \/ status_fails_to_decode json_Unmarshal customResource ->
  exists msg, GetRedisStatus json_Unmarshal kc out = (Fatal msg, out).
Proof.
  intros Hget Hbad. unfold GetRedisStatus, NestedMap. rewrite Hget.
  destruct Hbad as [Hmissing|(value & Hfield & Hvalue)].
  - rewrite Hmissing. by eexists.
  - rewrite Hfield.
    destruct value as [|b|n|s|items|status]; try by eexists.
    destruct Hvalue as [Hshape|[err Herr]]; [by destruct (Hshape status)|].
    cbn. unfold bind, ret. rewrite Herr. by eexists.
Qed.

(** C1, as the code has it. For every custom-resource document whose status
    sub-document is missing or fails to decode into the typed schema,
    [GetRedisStatus] ends in [log.Fatalf]: the process exits, and neither a
    report nor an error goes back to the caller. *)
Theorem undecodable_status_is_fatal (json_Unmarshal : json -> error + ClusterStatus)
    (kc : K8sClient) (customResource : list (string * json)) :
  Resource_Get (DynamicClient kc) redisclusters redis_namespace customResourceName
  = inr customResource ->
  status_missing customResource \/ status_fails_to_decode json_Unmarshal customResource ->
  (exists msg, run (GetRedisStatus json_Unmarshal kc) = (Fatal msg, []))
  /\ ~ returns (GetRedisStatus json_Unmarshal kc).
Proof.
  intros Hget Hbad.
  destruct (GetRedisStatus_undecodable json_Unmarshal kc customResource [] Hget Hbad)
    as [msg Hrun].
  split; [by exists msg|].
  intros (status & out & Hret). unfold run in Hret. congruence.
Qed.

Lemma undecodable_status_is_fatal_witness :
  Resource_Get (DynamicClient kc_no_status) redisclusters redis_namespace customResourceName
  = inr [metadata]
  /\ (status_missing [metadata]
      \/ status_fails_to_decode decodeClusterStatus [metadata])
  /\ (exists msg, run (GetRedisStatus decodeClusterStatus kc_no_status) = (Fatal msg, []))
  /\ ~ returns (GetRedisStatus decodeClusterStatus kc_no_status).
Proof.
  split; [reflexivity|]. split; [left; reflexivity|].
  apply (undecodable_status_is_fatal decodeClusterStatus kc_no_status [metadata]);
    [reflexivity | left; reflexivity].
Defined.

(** C1, the claim as stated fails: on a custom resource without a [status]
    entry the resolver does not return to its caller, it exits. *)
Lemma missing_status_exits_the_process :
  Resource_Get (DynamicClient kc_no_status) redisclusters redis_namespace customResourceName
  = inr [metadata]
  /\ status_missing [metadata]
  /\ run (GetRedisStatus decodeClusterStatus kc_no_status)
     = (Fatal "Error fetching status field: <nil>", [])
  /\ ~ returns (GetRedisStatus decodeClusterStatus kc_no_status).
Proof.
  split_and!; [reflexivity..|].
  intros (status & out & Hret). vm_compute in Hret. congruence.
Qed.

(** C3, what the code does. When the pod of one node of the report cannot be
    fetched, the enrichment join reads the first container of the empty pod
    the client handed back: the resolver panics, and no map comes back. *)
Theorem lookup_failure_panics (json_Unmarshal : json -> error + ClusterStatus)
    (kc : K8sClient) (clusterStatus : ClusterStatus) (node : Node) (err : error) :
  decodes_to json_Unmarshal kc clusterStatus ->
  node ∈ Nodes (ClusterStatus_Cluster clusterStatus) ->
  Pods_Get (Client kc) redis_namespace (PodName node) = inl err ->
  exists out,
    run (GetRedisStatus json_Unmarshal kc) = (Panicked index_out_of_range, out).
Proof.
  intros Hdecoded Hin Hget.
  pose proof (GetRedisStatus_decoded json_Unmarshal kc clusterStatus [] Hdecoded) as Hrun.
  destruct (PodDetails_loop_lookup_failure kc _ ∅ [] node err Hin Hget) as [out Hloop].
  rewrite Hloop in Hrun. by exists out.
Qed.

Lemma lookup_failure_panics_witness :
  decodes_to decodeClusterStatus kc_lost_pod status_decoded
  /\ member_node "rediscluster-1" "Replica" "zone-b"
     ∈ Nodes (ClusterStatus_Cluster status_decoded)
  /\ Pods_Get (Client kc_lost_pod) redis_namespace "rediscluster-1"
     = inl "pods rediscluster-1 not found"
  /\ exists out,
       run (GetRedisStatus decodeClusterStatus kc_lost_pod)
       = (Panicked index_out_of_range, out).
Proof.
  assert (Hin : member_node "rediscluster-1" "Replica" "zone-b"
                ∈ Nodes (ClusterStatus_Cluster status_decoded))
    by apply list_elem_of_further, list_elem_of_here.
  split_and!; [exact lost_pod_cluster_decodes | exact Hin | reflexivity |].
  exact (lookup_failure_panics decodeClusterStatus kc_lost_pod status_decoded
           (member_node "rediscluster-1" "Replica" "zone-b")
           "pods rediscluster-1 not found"
           lost_pod_cluster_decodes Hin eq_refl).
Defined.

Example lost_pod_run :
  run (GetRedisStatus decodeClusterStatus kc_lost_pod)
  = (Panicked index_out_of_range, ["pods rediscluster-1 not found" +:+ nl]).
Proof. vm_compute. reflexivity. Qed.

Lemma GetRedisStatus_returned (json_Unmarshal : json -> error + ClusterStatus)
    (kc : K8sClient) (clusterStatus : ClusterStatus) (status : RedisStatus)
    (out : list string) :
  decodes_to json_Unmarshal kc clusterStatus ->
  run (GetRedisStatus json_Unmarshal kc) = (Returned status, out) ->
  exists podDetails,
    PodDetails_loop kc (Nodes (ClusterStatus_Cluster clusterStatus)) ∅ []
    = (Returned podDetails, out)
    /\ report_of clusterStatus podDetails status.
Proof.
  intros Hdecoded Hrun. unfold run in Hrun.
  pose proof (GetRedisStatus_decoded json_Unmarshal kc clusterStatus [] Hdecoded) as Hcases.
  destruct (PodDetails_loop kc (Nodes (ClusterStatus_Cluster clusterStatus)) ∅ [])
    as [[podDetails|msg|msg] out']; [|congruence..].
  destruct Hcases as (status' & Hrun' & Hreport).
  rewrite Hrun' in Hrun. injection Hrun as -> ->. by exists podDetails.
Qed.

Lemma GetRedisStatus_resolved (json_Unmarshal : json -> error + ClusterStatus)
    (kc : K8sClient) (clusterStatus : ClusterStatus) :
  decodes_to json_Unmarshal kc clusterStatus ->
  Forall (resolves kc) (Nodes (ClusterStatus_Cluster clusterStatus)) ->
  returns (GetRedisStatus json_Unmarshal kc).
Proof.
  intros Hdecoded Hall.
  pose proof (GetRedisStatus_decoded json_Unmarshal kc clusterStatus [] Hdecoded) as Hcases.
  destruct (PodDetails_loop_resolved kc _ ∅ [] Hall) as (podDetails & Hloop & _).
  rewrite Hloop in Hcases. destruct Hcases as (status & Hrun & _).
  by exists status, [].
Qed.

(** C8. For every node list of a cluster report, the active-zone count of the
    resolver is the number of distinct zone values across the nodes: the
    length of any duplicate-free list of exactly the zones that occur, 1 when
    there are nodes and they all share one zone, 0 when there are none; and it
    is the [NumberActiveZones] of every report the resolver returns. *)
Theorem activeZones_counts_distinct_zones (nodes : list Node) :
  (forall zones,
     NoDup zones ->
     (forall zone, zone ∈ zones <-> zone_of_some nodes zone) ->
     activeZones nodes = Z.of_nat (length zones))
  /\ (forall zone,
        nodes <> [] ->
        (forall node, node ∈ nodes -> Zone node = zone) ->
        activeZones nodes = 1)
  /\ (nodes = [] -> activeZones nodes = 0)
  /\ (forall json_Unmarshal kc clusterStatus status out,
        decodes_to json_Unmarshal kc clusterStatus ->
        Nodes (ClusterStatus_Cluster clusterStatus) = nodes ->
        run (GetRedisStatus json_Unmarshal kc) = (Returned status, out) ->
        NumberActiveZones status = activeZones nodes).
Proof.
  split_and!.
  - apply activeZones_distinct.
  - intros zone Hnodes Hshare.
    rewrite (activeZones_distinct nodes [zone]); [done | apply NoDup_singleton |].
    intros z. rewrite list_elem_of_singleton. unfold zone_of_some. split.
    + intros ->. destruct nodes as [|node rest]; [done|].
      exists node. split; [apply list_elem_of_here | apply Hshare, list_elem_of_here].
    + intros (node & Hin & <-). by apply Hshare.
  - by intros ->.
  - intros json_Unmarshal kc clusterStatus status out Hdecoded <- Hrun.
    destruct (GetRedisStatus_returned _ _ _ _ _ Hdecoded Hrun) as (podDetails & _ & Hreport).
    apply Hreport.
Qed.

Lemma activeZones_counts_distinct_zones_witness :
  NoDup ["zone-a"; "zone-b"]
  /\ (forall zone, zone ∈ ["zone-a"; "zone-b"]
                   <-> zone_of_some (Nodes (ClusterStatus_Cluster status_decoded)) zone)
  /\ activeZones (Nodes (ClusterStatus_Cluster status_decoded)) = 2
  /\ activeZones [member_node "rediscluster-0" "Primary" "zone-a";
                  member_node "rediscluster-2" "Replica" "zone-a"] = 1
  /\ activeZones [] = 0.
Proof.
  assert (Hnodup : NoDup ["zone-a"; "zone-b"]).
  { apply NoDup_cons. split; [|apply NoDup_singleton].
    intros Hin. apply list_elem_of_singleton in Hin. discriminate. }
  assert (Hzones : forall zone,
             zone ∈ ["zone-a"; "zone-b"]
             <-> zone_of_some (Nodes (ClusterStatus_Cluster status_decoded)) zone).
  { intros zone. unfold zone_of_some. simpl. split.
    - intros [->|Hin]%elem_of_cons.
      + eexists. split; [apply list_elem_of_here | reflexivity].
      + apply list_elem_of_singleton in Hin as ->.
        eexists. split; [apply list_elem_of_further, list_elem_of_here | reflexivity].
    - intros (node & Hin & <-).
      apply elem_of_cons in Hin as [->|Hin]; [apply list_elem_of_here|].
      apply list_elem_of_singleton in Hin as ->.
      apply list_elem_of_further, list_elem_of_here. }
  split_and!; [exact Hnodup | exact Hzones | | |].
  - exact (proj1 (activeZones_counts_distinct_zones _) _ Hnodup Hzones).
  - refine (proj1 (proj2 (activeZones_counts_distinct_zones _)) "zone-a" _ _); [done|].
    intros node [->|Hin]%elem_of_cons; [reflexivity|].
    by apply list_elem_of_singleton in Hin as ->.
  - exact (proj1 (proj2 (proj2 (activeZones_counts_distinct_zones []))) eq_refl).
Defined.

(** C10. For every custom-resource status document that decodes: every
    report [GetRedisStatus] returns has [ClusterSlotsPfail] 0,
    [ClusterSlotsFail] 0 and [NumberZonesPrimaries] 1, and both
    [ClusterSlotsOk] and [ClusterKnownNodes] equal to the length of the
    report's node list; and a report is returned whenever the pod of every
    node resolves. *)
Theorem report_constants (json_Unmarshal : json -> error + ClusterStatus)
    (kc : K8sClient) (clusterStatus : ClusterStatus) :
  decodes_to json_Unmarshal kc clusterStatus ->
  (forall status out,
     run (GetRedisStatus json_Unmarshal kc) = (Returned status, out) ->
     ClusterSlotsPfail status = 0
     /\ ClusterSlotsFail status = 0
     /\ NumberZonesPrimaries status = 1
     /\ ClusterSlotsOk status
        = Z.of_nat (length (Nodes (ClusterStatus_Cluster clusterStatus)))
     /\ ClusterKnownNodes status
        = Z.of_nat (length (Nodes (ClusterStatus_Cluster clusterStatus))))
  /\ (Forall (resolves kc) (Nodes (ClusterStatus_Cluster clusterStatus)) ->
      returns (GetRedisStatus json_Unmarshal kc)).
Proof.
  intros Hdecoded. split.
  - intros status out Hrun.
    destruct (GetRedisStatus_returned _ _ _ _ _ Hdecoded Hrun) as (podDetails & _ & Hreport).
    unfold report_of in Hreport. naive_solver.
  - by apply GetRedisStatus_resolved.
Qed.

Lemma healthy_cluster_resolves :
  Forall (resolves kc_healthy) (Nodes (ClusterStatus_Cluster status_decoded)).
Proof.
  repeat apply Forall_cons_2; [| |apply Forall_nil_2];
    eexists; (split; [reflexivity | discriminate]).
Defined.

Lemma report_constants_witness :
  decodes_to decodeClusterStatus kc_healthy status_decoded
  /\ Forall (resolves kc_healthy) (Nodes (ClusterStatus_Cluster status_decoded))
  /\ returns (GetRedisStatus decodeClusterStatus kc_healthy)
  /\ forall status out,
       run (GetRedisStatus decodeClusterStatus kc_healthy) = (Returned status, out) ->
       NumberZonesPrimaries status = 1 /\ ClusterSlotsOk status = 2.
Proof.
  pose proof (report_constants decodeClusterStatus kc_healthy status_decoded
                healthy_cluster_decodes) as [Hfields Hreturns].
  split_and!; [exact healthy_cluster_decodes | exact healthy_cluster_resolves
              | exact (Hreturns healthy_cluster_resolves) |].
  intros status out Hrun.
  destruct (Hfields status out Hrun) as (_ & _ & Hzones & Hok & _). by split.
Defined.

Example healthy_cluster_report :
  exists status,
    run (GetRedisStatus decodeClusterStatus kc_healthy) = (Returned status, [])
    /\ NumberActiveZones status = 2
    /\ PodDetails status !! "rediscluster-1"
       = Some {| Worker := "worker-2"; CPU := "500m"; Memory := "1Gi" |}.
Proof. eexists. split_and!; [vm_compute; reflexivity | reflexivity | reflexivity]. Qed.

(** ** RemoteExecutor *)

(** C2, what the code does. Once the client configuration is built,
    [ExecuteRemoteCommand] hands back a nil error whatever the stream did: a
    failure of [exec.Stream] is discarded, the caller gets the two buffers
    and no error; and no run returns a non-nil error. *)
Theorem ExecuteRemoteCommand_discards_stream_error (sys : Platform) (kc : K8sClient)
    (namespace pod container command : string) (config : Config)
    (stdout stderr : string) (err : error) :
  BuildConfigFromFlags sys = inr config ->
  NewSPDYExecutor sys config (exec_request namespace pod container command) = None ->
  Stream sys config (exec_request namespace pod container command)
  = (stdout, stderr, Some err) ->
  run (ExecuteRemoteCommand sys kc namespace pod container command)
  = (Returned (stdout, stderr, None), [])
  /\ forall sys' kc' result out,
       run (ExecuteRemoteCommand sys' kc' namespace pod container command)
       = (Returned result, out) ->
       result.2 = None.
Proof.
  intros Hconfig Hexec Hstream. split.
  - unfold run, ExecuteRemoteCommand, bind. rewrite Hconfig. cbn [ret].
    rewrite Hexec. cbn [ret]. by rewrite Hstream.
  - intros sys' kc' result out. unfold run, ExecuteRemoteCommand, bind.
    destruct (BuildConfigFromFlags sys') as [e|config']; [done|]. cbn [ret].
    destruct (NewSPDYExecutor sys' config' _); [done|]. cbn [ret].
    by intros [= <- _].
Qed.

Lemma ExecuteRemoteCommand_discards_stream_error_witness :
  BuildConfigFromFlags sys_stream_fails = inr {| Host := "https://10.0.0.1:6443" |}
  /\ run (ExecuteRemoteCommand sys_stream_fails kc_healthy "fed-prometheus"
            "alertmanager-prometheus-alerts-0" "alertmanager" "amtool alert query")
     = (Returned ("", "", None), []).
Proof.
  split; [reflexivity|].
  exact (proj1 (ExecuteRemoteCommand_discards_stream_error sys_stream_fails kc_healthy
                  "fed-prometheus" "alertmanager-prometheus-alerts-0" "alertmanager"
                  "amtool alert query" {| Host := "https://10.0.0.1:6443" |} "" ""
                  "pods alertmanager-prometheus-alerts-0 not found"
                  eq_refl eq_refl eq_refl)).
Defined.

Example no_executor_panics :
  run (ExecuteRemoteCommand sys_no_executor kc_healthy "fed-prometheus"
         "alertmanager-prometheus-alerts-0" "alertmanager" "amtool alert query")
  = (Panicked "runtime error: invalid memory address or nil pointer dereference", []).
Proof. reflexivity. Qed.

(** ** ResourceUsageAggregator: the join *)

Lemma podUsage_step_returns (podMetricsMap : gmap string metricsv1beta1.PodMetrics)
    (pod : v1.Pod) (out : list string) :
  exists out', podUsage_step podMetricsMap pod out
               = (Returned (podUsage_of podMetricsMap pod), out').
Proof.
  unfold podUsage_step, podUsage_of.
  destruct (podMetricsMap !! podKey (v1.Pod_Namespace pod) (v1.Pod_Name pod));
    by eexists.
Qed.

Lemma podsUsage_loop_returns (podMetricsMap : gmap string metricsv1beta1.PodMetrics)
    (items : list v1.Pod) (report : ResourceUsageReport) (out : list string) :
  exists out',
    podsUsage_loop podMetricsMap items report out
    = (Returned {| PodsUsage := PodsUsage report ++ (podUsage_of podMetricsMap <$> items) |},
       out').
Proof.
  revert report out. induction items as [|pod rest IH]; intros report out.
  - exists out. cbn. rewrite app_nil_r. by destruct report.
  - cbn [podsUsage_loop]. unfold bind.
    destruct (podUsage_step_returns podMetricsMap pod out) as [out1 ->].
    destruct (IH {| PodsUsage := PodsUsage report ++ [podUsage_of podMetricsMap pod] |} out1)
      as [out2 ->].
    exists out2. cbn. by rewrite <- app_assoc.
Qed.

(** With both listings fetched, the report is the pods in listing order, each
    joined with the metrics indexed under its key. *)
Lemma GetResourceUsageReport_fetched (kc : K8sClient) (pods : list v1.Pod)
    (podMetricsList : list metricsv1beta1.PodMetrics) :
  Pods_List (Client kc) "" = inr pods ->
  PodMetricses_List (MetricsClient kc) "" = inr podMetricsList ->
  exists out,
    run (GetResourceUsageReport kc)
    = (Returned {| PodsUsage := podUsage_of (podMetricsMap_of podMetricsList) <$> pods |},
       out).
Proof.
  intros Hpods Hmetrics. unfold run, GetResourceUsageReport, bind.
  rewrite Hpods. cbn [ret]. rewrite Hmetrics. cbn [ret].
  destruct (podsUsage_loop_returns (podMetricsMap_of podMetricsList) pods
              {| PodsUsage := [] |} []) as [out ->].
  by exists out.
Qed.

(** C4, as the code has it. For every invocation of [GetResourceUsageReport],
    a failure to fetch the pod listing or the metrics snapshot ends in
    [log.Fatalf]: the process exits and no list, empty or not, goes back to
    the caller; a report is returned exactly when both fetches succeed. *)
Theorem fetch_failure_is_fatal (kc : K8sClient) :
  (fetch_fails kc -> exists msg, run (GetResourceUsageReport kc) = (Fatal msg, []))
  /\ (returns (GetResourceUsageReport kc) <-> ~ fetch_fails kc).
Proof.
  assert (Hfatal : fetch_fails kc ->
                   exists msg, run (GetResourceUsageReport kc) = (Fatal msg, [])).
  { unfold fetch_fails, run, GetResourceUsageReport, bind.
    intros [[err Hpods]|[err Hmetrics]].
    - rewrite Hpods. by eexists.
    - destruct (Pods_List (Client kc) "") as [e|pods]; [by eexists|].
      cbn [ret]. rewrite Hmetrics. by eexists. }
  split; [done|]. split.
  - intros (report & out & Hrun) Hfails.
    destruct (Hfatal Hfails) as [msg Hmsg]. congruence.
  - intros Hok.
    destruct (Pods_List (Client kc) "") as [err|pods] eqn:Hpods.
    { exfalso. apply Hok. left. by exists err. }
    destruct (PodMetricses_List (MetricsClient kc) "") as [err|podMetricsList] eqn:Hmetrics.
    { exfalso. apply Hok. right. by exists err. }
    destruct (GetResourceUsageReport_fetched kc pods podMetricsList Hpods Hmetrics)
      as [out Hrun].
    by eexists _, out.
Qed.

Lemma fetch_failure_is_fatal_witness :
  fetch_fails kc_metrics_unreachable
  /\ exists msg, run (GetResourceUsageReport kc_metrics_unreachable) = (Fatal msg, []).
Proof.
  assert (Hfails : fetch_fails kc_metrics_unreachable).
  { right. eexists. reflexivity. }
  split; [exact Hfails|].
  exact (proj1 (fetch_failure_is_fatal kc_metrics_unreachable) Hfails).
Defined.

(** C4, the claim as stated fails: when the pod listing cannot be fetched the
    aggregator does not hand an empty list to its caller, it exits. *)
Lemma pods_fetch_failure_exits_the_process :
  Pods_List (Client kc_pods_unreachable) "" = inl "connection refused"
  /\ run (GetResourceUsageReport kc_pods_unreachable)
     = (Fatal "Error fetching pods: connection refused", [])
  /\ ~ returns (GetResourceUsageReport kc_pods_unreachable).
Proof.
  split_and!; [reflexivity..|].
  intros (report & out & Hrun). vm_compute in Hrun. congruence.
Qed.

Lemma podMetricsMap_of_snoc (items : list metricsv1beta1.PodMetrics)
    (podMetrics : metricsv1beta1.PodMetrics) :
  podMetricsMap_of (items ++ [podMetrics])
  = <[metricsKey podMetrics := podMetrics]> (podMetricsMap_of items).
Proof. unfold podMetricsMap_of. by rewrite foldl_snoc. Qed.

(** The index holds, under each key, the last entry of the listing with it. *)
Lemma podMetricsMap_of_list_to_map (items : list metricsv1beta1.PodMetrics) :
  podMetricsMap_of items
  = list_to_map (reverse ((fun podMetrics => (metricsKey podMetrics, podMetrics)) <$> items)).
Proof.
  induction items as [|podMetrics items IH] using rev_ind; [done|].
  rewrite podMetricsMap_of_snoc, IH, fmap_app, reverse_app.
  done.
Qed.

Lemma podMetricsMap_of_Permutation (items items' : list metricsv1beta1.PodMetrics) :
  NoDup (metricsKey <$> items) ->
  items ≡ₚ items' ->
  podMetricsMap_of items = podMetricsMap_of items'.
Proof.
  intros Hnodup Hperm. rewrite !podMetricsMap_of_list_to_map.
  apply list_to_map_proper.
  - rewrite fmap_reverse, reverse_Permutation, <- list_fmap_compose.
    exact Hnodup.
  - by rewrite !reverse_Permutation, Hperm.
Qed.

(** C9. For every pod listing and every metrics snapshot (a listing of the
    metrics API, keyed by [namespace/name]: no two entries share a key),
    permuting the pod list and the metrics list gives the same pod usages up
    to their order, hence the same set of them. *)
Theorem join_independent_of_listing_order (kc kc' : K8sClient)
    (pods pods' : list v1.Pod) (podMetricsList podMetricsList' : list metricsv1beta1.PodMetrics) :
  Pods_List (Client kc) "" = inr pods ->
  PodMetricses_List (MetricsClient kc) "" = inr podMetricsList ->
  Pods_List (Client kc') "" = inr pods' ->
  PodMetricses_List (MetricsClient kc') "" = inr podMetricsList' ->
  pods ≡ₚ pods' ->
  podMetricsList ≡ₚ podMetricsList' ->
  NoDup (metricsKey <$> podMetricsList) ->
  exists report report' out out',
    run (GetResourceUsageReport kc) = (Returned report, out)
    /\ run (GetResourceUsageReport kc') = (Returned report', out')
    /\ PodsUsage report ≡ₚ PodsUsage report'
    /\ (forall podusage, podusage ∈ PodsUsage report <-> podusage ∈ PodsUsage report').
Proof.
  intros Hpods Hmetrics Hpods' Hmetrics' Hperm Hperm_metrics Hnodup.
  destruct (GetResourceUsageReport_fetched kc pods podMetricsList Hpods Hmetrics)
    as [out Hrun].
  destruct (GetResourceUsageReport_fetched kc' pods' podMetricsList' Hpods' Hmetrics')
    as [out' Hrun'].
  eexists _, _, out, out'. split; [exact Hrun|]. split; [exact Hrun'|].
  cbn [PodsUsage].
  rewrite <- (podMetricsMap_of_Permutation _ _ Hnodup Hperm_metrics).
  split; [by rewrite Hperm|].
  intros podusage. by rewrite Hperm.
Qed.

Lemma join_independent_of_listing_order_witness :
  all_pods ≡ₚ [rediscluster_1; rediscluster_0; migrate_job; web_0]
  /\ NoDup (metricsKey <$> all_metrics)
  /\ exists report report' out out',
       run (GetResourceUsageReport kc_healthy) = (Returned report, out)
       /\ run (GetResourceUsageReport kc_healthy_reordered) = (Returned report', out')
       /\ PodsUsage report ≡ₚ PodsUsage report'
       /\ (forall podusage, podusage ∈ PodsUsage report <-> podusage ∈ PodsUsage report').
Proof.
  assert (Hpods : all_pods ≡ₚ [rediscluster_1; rediscluster_0; migrate_job; web_0])
    by apply perm_swap.
  assert (Hnodup : NoDup (metricsKey <$> all_metrics)).
  { apply NoDup_cons. split; [|apply NoDup_singleton].
    intros Hin. apply list_elem_of_singleton in Hin. vm_compute in Hin. discriminate. }
  split; [exact Hpods|]. split; [exact Hnodup|].
  exact (join_independent_of_listing_order kc_healthy kc_healthy_reordered
           all_pods [rediscluster_1; rediscluster_0; migrate_job; web_0]
           all_metrics
           [metrics_of redis_namespace "rediscluster-1" "redis-node" q500m q512Mi;
            metrics_of redis_namespace "rediscluster-0" "redis-node" q250m q512Mi]
           eq_refl eq_refl eq_refl eq_refl Hpods (perm_swap _ _ _) Hnodup).
Defined.

(** The premise on the keys is what a snapshot provides; on a list that holds
    two entries under one key, which the metrics API does not return, the
    entry that comes last is the one joined. *)
Lemma repeated_key_depends_on_order :
  Pods_List (Client kc_twice) "" = Pods_List (Client kc_twice_swapped) ""
  /\ PodMetricses_List (MetricsClient kc_twice) "" = inr metrics_twice
  /\ PodMetricses_List (MetricsClient kc_twice_swapped) "" = inr metrics_twice_swapped
  /\ metrics_twice ≡ₚ metrics_twice_swapped
  /\ exists report report',
       run (GetResourceUsageReport kc_twice) = (Returned report, [])
       /\ run (GetResourceUsageReport kc_twice_swapped) = (Returned report', [])
       /\ CPUUsage <$> (PodsUsage report ≫= ContainerUsages) = [float64_of_int 100]
       /\ CPUUsage <$> (PodsUsage report' ≫= ContainerUsages) = [float64_of_int 50]
       /\ ~ (forall podusage,
               podusage ∈ PodsUsage report <-> podusage ∈ PodsUsage report').
Proof.
  split_and!; [reflexivity | reflexivity | reflexivity | apply perm_swap |].
  eexists _, _.
  split; [vm_compute; reflexivity|]. split; [vm_compute; reflexivity|].
  split; [reflexivity|]. split; [reflexivity|].
  intros Hsame. cbn [PodsUsage] in Hsame.
  pose proof (proj1 (Hsame _) (list_elem_of_here _ _)) as Hin.
  apply list_elem_of_singleton in Hin. discriminate Hin.
Qed.

(** * Further properties of the code *)

(** ** HealthCheckEngine: events and verdicts *)

Lemma filter_none {A} (P : A -> Prop) `{forall x, Decision (P x)} (l : list A) :
  (forall x, x ∈ l -> ~ P x) -> filter P l = [].
Proof.
  induction l as [|x rest IH]; intros Hall; [done|].
  rewrite filter_cons, decide_False by (apply Hall, list_elem_of_here).
  apply IH. intros y Hy. by apply Hall, list_elem_of_further.
Qed.

Lemma CheckEvents_counts_from (items : list Event) (warnings errors : Z) :
  0 <= warnings -> 0 <= errors ->
  warnings + Z.of_nat (length items) <= max_int ->
  errors + Z.of_nat (length items) <= max_int ->
  foldl (fun counts event =>
           let warningEventsCount :=
             if bool_decide (Event_Type event = "Warning")
             then wrap64 (counts.1 + 1) else counts.1 in
           let errorEventsCount :=
             if bool_decide (Event_Type event = "Error")
             then wrap64 (counts.2 + 1) else counts.2 in
           (warningEventsCount, errorEventsCount))
        (warnings, errors) items
  = (warnings + Z.of_nat (length (events_of_type "Warning" items)),
     errors + Z.of_nat (length (events_of_type "Error" items))).
Proof.
  unfold max_int, events_of_type.
  revert warnings errors.
  induction items as [|event rest IH]; intros warnings errors Hw He Hwmax Hemax;
    simpl in *.
  - f_equal; lia.
  - rewrite !filter_cons.
    destruct (decide (Event_Type event = "Warning")) as [Hwarning|Hwarning];
      destruct (decide (Event_Type event = "Error")) as [Herror|Herror];
      try congruence.
    + rewrite bool_decide_eq_true_2, bool_decide_eq_false_2 by done.
      rewrite wrap64_small by lia. rewrite IH by lia. simpl. f_equal; lia.
    + rewrite bool_decide_eq_false_2, bool_decide_eq_true_2 by done.
      rewrite wrap64_small by lia. rewrite IH by lia. simpl. f_equal; lia.
    + rewrite !bool_decide_eq_false_2 by done. rewrite IH by lia. done.
Qed.

(** X1. For every event listing (a Go slice), [CheckEvents] counts the events
    of type "Warning" and those of type "Error", passes exactly when there is
    neither, and otherwise fails with both numbers in its detail; events of
    any other type are not counted. *)
Theorem CheckEvents_counts_warnings_and_errors (core : CoreV1Interface)
    (items : list Event) :
  Events_List core "" = inr items ->
  Z.of_nat (length items) <= max_int ->
  CheckEvents_counts items
  = (Z.of_nat (length (events_of_type "Warning" items)),
     Z.of_nat (length (events_of_type "Error" items)))
  /\ (Status (CheckEvents core) = true
      <-> forall event, event ∈ items ->
          Event_Type event <> "Warning" /\ Event_Type event <> "Error")
  /\ (Status (CheckEvents core) = true ->
      CheckEvents core
      = {| Status := true; Info := "No failed events found"; Error := None |})
  /\ (Status (CheckEvents core) = false ->
      CheckEvents core
      = {| Status := false;
           Info := fmt_d (Z.of_nat (length (events_of_type "Warning" items)))
                   +:+ " warning events and "
                   +:+ fmt_d (Z.of_nat (length (events_of_type "Error" items)))
                   +:+ " error events found" +:+ nl;
           Error := None |}).
Proof.
  intros Hlist Hmax.
  assert (Hcounts : CheckEvents_counts items
                    = (Z.of_nat (length (events_of_type "Warning" items)),
                       Z.of_nat (length (events_of_type "Error" items)))).
  { unfold CheckEvents_counts. rewrite CheckEvents_counts_from; [done|lia..]. }
  assert (Hnone : forall type,
             length (events_of_type type items) = 0%nat
             <-> forall event, event ∈ items -> Event_Type event <> type).
  { intros type. unfold events_of_type. rewrite length_zero_iff_nil. split.
    - intros Hnil event Hin Htype.
      assert (Hin' : event ∈ filter (fun e => Event_Type e = type) items)
        by (by apply list_elem_of_filter).
      rewrite Hnil in Hin'. by apply elem_of_nil in Hin'.
    - intros Hall. by apply filter_none. }
  unfold CheckEvents. rewrite Hlist, Hcounts. cbn [fst snd].
  destruct (length (events_of_type "Warning" items)) as [|w] eqn:Hw;
    [destruct (length (events_of_type "Error" items)) as [|e] eqn:He|].
  - cbn. split_and!; try done. split; [|done]. intros _ event Hin.
    split; [by apply (proj1 (Hnone "Warning") Hw) | by apply (proj1 (Hnone "Error") He)].
  - rewrite (bool_decide_eq_true_2 (Z.of_nat (S e) > 0)) by lia.
    rewrite orb_true_r. cbn [Status]. split_and!; try done.
    split; [done|]. intros Hall. rewrite (proj2 (Hnone "Error")) in He; [done|].
    intros event Hin. by apply Hall.
  - rewrite (bool_decide_eq_true_2 (Z.of_nat (S w) > 0)) by lia.
    cbn [orb Status]. split_and!; try done.
    split; [done|]. intros Hall. rewrite (proj2 (Hnone "Warning")) in Hw; [done|].
    intros event Hin. by apply Hall.
Qed.

Lemma CheckEvents_counts_warnings_and_errors_witness :
  Z.of_nat (length [ {| Event_Type := "Normal" |}; {| Event_Type := "Warning" |};
                     {| Event_Type := "Normal" |}; {| Event_Type := "Warning" |} ])
  <= max_int
  /\ CheckEvents core_healthy
     = {| Status := false;
          Info := "2 warning events and 0 error events found" +:+ nl;
          Error := None |}.
Proof.
  assert (Hmax : Z.of_nat (length [ {| Event_Type := "Normal" |};
                                    {| Event_Type := "Warning" |};
                                    {| Event_Type := "Normal" |};
                                    {| Event_Type := "Warning" |} ]) <= max_int)
    by (vm_compute; discriminate).
  split; [exact Hmax|].
  exact (proj2 (proj2 (proj2 (CheckEvents_counts_warnings_and_errors core_healthy _
                                eq_refl Hmax))) eq_refl).
Defined.

Lemma CheckNodes_items_no_error (items : list v1.Node) :
  Error (CheckNodes_items items) = None.
Proof.
  induction items as [|node rest IH]; simpl; [done|].
  by destruct (CheckNodes_conditions_cases (v1.Node_Name node)
                 (v1.NodeStatus_Conditions (v1.Node_Status node))) as [[-> _]|[-> _]].
Qed.

(** X2. The verdict of each of the three probes carries an error exactly when
    its listing failed: it is then the error of the listing, with
    [Status = false] and an empty detail; a verdict built from a listing,
    passing or failing, never carries an error and never has an empty detail. *)
Theorem probe_error_is_the_listing_error (kc : K8sClient) (core : CoreV1Interface) :
  Error (CheckNodes kc) = (List_result (Nodes_List (Client kc))).2
  /\ Error (CheckPods kc) = (List_result (Pods_List (Client kc) "")).2
  /\ Error (CheckEvents core) = (List_result (Events_List core "")).2
  /\ forall verdict,
       verdict ∈ [CheckNodes kc; CheckPods kc; CheckEvents core] ->
       match Error verdict with
       | Some err => verdict = listing_failed err
       | None => Info verdict <> ""
       end.
Proof.
  assert (Hnodes : forall items, Info (CheckNodes_items items) <> "").
  { induction items as [|node rest IH]; simpl; [done|].
    by destruct (CheckNodes_conditions_cases (v1.Node_Name node)
                   (v1.NodeStatus_Conditions (v1.Node_Status node))) as [[-> _]|[-> _]]. }
  assert (Hd : forall n, fmt_d n +:+ " pods are in not running state" +:+ nl <> "").
  { intros n. unfold fmt_d. by destruct (NilZero.string_of_int (Z.to_int n)). }
  assert (He : forall n m, fmt_d n +:+ " warning events and " +:+ fmt_d m
                           +:+ " error events found" +:+ nl <> "").
  { intros n m. unfold fmt_d. by destruct (NilZero.string_of_int (Z.to_int n)). }
  unfold CheckNodes, CheckPods, CheckEvents.
  split_and!.
  - destruct (Nodes_List (Client kc)); [done|]. apply CheckNodes_items_no_error.
  - destruct (Pods_List (Client kc) ""); [done|]. cbn. by case_bool_decide.
  - destruct (Events_List core ""); [done|]. cbn.
    by destruct (bool_decide _ || bool_decide _).
  - intros verdict Hin.
    repeat (apply elem_of_cons in Hin as [->|Hin]); [| | |by apply elem_of_nil in Hin].
    + destruct (Nodes_List (Client kc)) as [err|items]; [done|].
      rewrite CheckNodes_items_no_error. apply Hnodes.
    + destruct (Pods_List (Client kc) "") as [err|items]; [done|]. cbn.
      case_bool_decide; cbn; [apply Hd | done].
    + destruct (Events_List core "") as [err|items]; [done|]. cbn.
      destruct (bool_decide _ || bool_decide _); cbn; [apply He | done].
Qed.

Lemma CheckNodes_conditions_Ready_only (Name : string) (conditions : list v1.NodeCondition) :
  CheckNodes_conditions Name
    (filter (fun condition => v1.NodeCondition_Type condition = "Ready") conditions)
  = CheckNodes_conditions Name conditions.
Proof.
  induction conditions as [|condition rest IH]; [done|].
  rewrite filter_cons.
  destruct (decide (v1.NodeCondition_Type condition = "Ready")) as [Hready|Hother]; simpl.
  - by rewrite IH.
  - by rewrite bool_decide_eq_false_2.
Qed.

(** X3. [CheckNodes] looks at the conditions of type "Ready" only: removing
    every other condition from every node of the listing (whatever its
    status) leaves the verdict unchanged. *)
Theorem CheckNodes_reads_Ready_conditions_only (kc kc' : K8sClient) (items : list v1.Node) :
  Nodes_List (Client kc) = inr items ->
  Nodes_List (Client kc') = inr (Ready_only <$> items) ->
  CheckNodes kc' = CheckNodes kc.
Proof.
  intros Hlist Hlist'. unfold CheckNodes. rewrite Hlist, Hlist'. clear Hlist Hlist'.
  induction items as [|node rest IH]; [done|].
  cbn [fmap list_fmap CheckNodes_items Ready_only v1.Node_Name v1.Node_Status
       v1.NodeStatus_Conditions].
  rewrite CheckNodes_conditions_Ready_only.
  destruct (CheckNodes_conditions _ _); [done|]. apply IH.
Qed.

Lemma CheckNodes_reads_Ready_conditions_only_witness :
  Nodes_List (Client kc_degraded_Ready_only)
  = inr (Ready_only <$> [worker "worker-1" "True"; worker "worker-2" "False";
                         worker "worker-3" "Unknown"])
  /\ CheckNodes kc_degraded_Ready_only = CheckNodes kc_degraded.
Proof.
  split; [reflexivity|].
  exact (CheckNodes_reads_Ready_conditions_only kc_degraded kc_degraded_Ready_only
           _ eq_refl eq_refl).
Defined.

(** ** RedisClusterStatusResolver: every outcome *)

Lemma PodDetails_loop_outcome (kc : K8sClient) (nodeList : list Node)
    (podDetails : gmap string missingDetails) (out : list string) :
  Forall (resolves kc) nodeList
  \/ exists out', PodDetails_loop kc nodeList podDetails out
                  = (Panicked index_out_of_range, out').
Proof.
  revert podDetails out.
  induction nodeList as [|node rest IH]; intros podDetails out; [by left|].
  cbn [PodDetails_loop].
  destruct (Pods_Get (Client kc) redis_namespace (PodName node)) as [e|pod] eqn:Hget;
    cbn [Get_result].
  { right. eexists. reflexivity. }
  destruct (v1.PodSpec_Containers (v1.Pod_Spec pod)) as [|container others] eqn:Hc.
  { right. eexists. unfold bind at 1. cbn [ret]. unfold bind at 1, index. reflexivity. }
  unfold bind at 1. cbn [ret]. unfold bind at 1, index. cbn [lookup list_lookup ret].
  edestruct IH as [Hrest|Hpanic]; [left|right; exact Hpanic].
  constructor; [|done]. exists pod. split; [done|]. by rewrite Hc.
Qed.

Lemma PodDetails_loop_lookup (kc : K8sClient) (nodeList : list Node)
    (podDetails podDetails' : gmap string missingDetails) (out out' : list string) :
  PodDetails_loop kc nodeList podDetails out = (Returned podDetails', out') ->
  out' = out
  /\ forall Name,
       podDetails' !! Name
       = if decide (Name ∈ PodName <$> nodeList) then enrichment kc Name
         else podDetails !! Name.
Proof.
  revert podDetails out.
  induction nodeList as [|node rest IH]; intros podDetails out.
  - intros [= -> ->]. split; [done|]. intros Name.
    rewrite decide_False; [done|]. by intros ?%elem_of_nil.
  - cbn [PodDetails_loop].
    destruct (Pods_Get (Client kc) redis_namespace (PodName node)) as [e|pod] eqn:Hget;
      cbn [Get_result]; [done|].
    destruct (v1.PodSpec_Containers (v1.Pod_Spec pod)) as [|container others] eqn:Hc;
      [done|].
    unfold bind at 1. cbn [ret]. unfold bind at 1, index. cbn [lookup list_lookup ret].
    intros Hloop. apply IH in Hloop as [-> Hlookup]. split; [done|].
    intros Name. rewrite Hlookup. rewrite fmap_cons.
    destruct (decide (Name ∈ PodName <$> rest)) as [Hin|Hnotin].
    + rewrite decide_True; [done | by apply list_elem_of_further].
    + destruct (decide (Name = PodName node)) as [->|Hne].
      * rewrite decide_True by apply list_elem_of_here.
        rewrite lookup_insert_eq. unfold enrichment. by rewrite Hget, Hc.
      * rewrite decide_False by (intros [?|?]%elem_of_cons; done).
        by rewrite lookup_insert_ne.
Qed.

(** X4. [GetRedisStatus] hands a report back to its caller in two cases only:
    the custom resource could not be read (the error is printed and the
    report is the zero value), or its status decodes and the pod of every
    node of the report is found with a container. In every other case the
    process exits or panics. *)
Theorem GetRedisStatus_returns_iff (json_Unmarshal : json -> error + ClusterStatus)
    (kc : K8sClient) :
  (returns (GetRedisStatus json_Unmarshal kc)
   <-> (exists err,
          Resource_Get (DynamicClient kc) redisclusters redis_namespace customResourceName
          = inl err)
       \/ (exists clusterStatus,
             decodes_to json_Unmarshal kc clusterStatus
             /\ Forall (resolves kc) (Nodes (ClusterStatus_Cluster clusterStatus))))
  /\ (forall err,
        Resource_Get (DynamicClient kc) redisclusters redis_namespace customResourceName
        = inl err ->
        run (GetRedisStatus json_Unmarshal kc) = (Returned RedisStatus_zero, [err +:+ nl])).
Proof.
  assert (Hzero : forall err,
             Resource_Get (DynamicClient kc) redisclusters redis_namespace customResourceName
             = inl err ->
             run (GetRedisStatus json_Unmarshal kc)
             = (Returned RedisStatus_zero, [err +:+ nl])).
  { intros err Hget. unfold run, GetRedisStatus. by rewrite Hget. }
  split; [|done]. split.
  - intros (status & out & Hrun).
    destruct (Resource_Get (DynamicClient kc) redisclusters redis_namespace
                customResourceName) as [err|customResource] eqn:Hget;
      [left; by exists err|right].
    assert (Hok : ~ (status_missing customResource
                     \/ status_fails_to_decode json_Unmarshal customResource)).
    { intros Hbad.
      destruct (GetRedisStatus_undecodable json_Unmarshal kc customResource [] Hget Hbad)
        as [msg Hfatal].
      unfold run in Hrun. congruence. }
    destruct (field "status" customResource) as [value|] eqn:Hfield;
      [|exfalso; apply Hok; by left].
    assert (Hshape : exists fields, value = JObject fields).
    { destruct value; eauto; exfalso; apply Hok; right; eexists;
        (split; [done | by left]). }
    destruct Hshape as [fields ->].
    destruct (json_Unmarshal (JObject fields)) as [err|clusterStatus] eqn:Hdecode.
    { exfalso. apply Hok. right. eexists. split; [done|]. right. by exists err. }
    assert (Hdecoded : decodes_to json_Unmarshal kc clusterStatus)
      by (by exists customResource, fields).
    exists clusterStatus. split; [done|].
    destruct (PodDetails_loop_outcome kc (Nodes (ClusterStatus_Cluster clusterStatus)) ∅ [])
      as [Hall|[out' Hpanic]]; [done|].
    pose proof (GetRedisStatus_decoded json_Unmarshal kc clusterStatus [] Hdecoded) as Hcases.
    rewrite Hpanic in Hcases. unfold run in Hrun. congruence.
  - intros [[err Hget]|(clusterStatus & Hdecoded & Hall)].
    + eexists _, _. by apply Hzero.
    + by apply (GetRedisStatus_resolved json_Unmarshal kc clusterStatus).
Qed.

Lemma GetRedisStatus_returns_iff_witness :
  Resource_Get (DynamicClient kc_no_resource) redisclusters redis_namespace customResourceName
  = inl "redisclusters.db.ibm.com node-for-redis not found"
  /\ run (GetRedisStatus decodeClusterStatus kc_no_resource)
     = (Returned RedisStatus_zero,
        ["redisclusters.db.ibm.com node-for-redis not found" +:+ nl])
  /\ returns (GetRedisStatus decodeClusterStatus kc_healthy).
Proof.
  split; [reflexivity|]. split.
  - exact (proj2 (GetRedisStatus_returns_iff decodeClusterStatus kc_no_resource) _ eq_refl).
  - apply (proj1 (GetRedisStatus_returns_iff decodeClusterStatus kc_healthy)).
    right. exists status_decoded.
    split; [exact healthy_cluster_decodes | exact healthy_cluster_resolves].
Defined.

(** X5. In every report [GetRedisStatus] returns for a decoded status, the
    enrichment map has an entry for exactly the pod names of the report's
    nodes, and the entry of a node holds the worker of its pod and the CPU and
    memory requests of the pod's first container (other containers are not
    read); nothing was printed on the way. *)
Theorem PodDetails_of_the_report (json_Unmarshal : json -> error + ClusterStatus)
    (kc : K8sClient) (clusterStatus : ClusterStatus) (status : RedisStatus)
    (out : list string) :
  decodes_to json_Unmarshal kc clusterStatus ->
  run (GetRedisStatus json_Unmarshal kc) = (Returned status, out) ->
  out = []
  /\ (forall Name,
        is_Some (PodDetails status !! Name)
        <-> exists node,
              node ∈ Nodes (ClusterStatus_Cluster clusterStatus) /\ PodName node = Name)
  /\ (forall node,
        node ∈ Nodes (ClusterStatus_Cluster clusterStatus) ->
        exists pod container others,
          Pods_Get (Client kc) redis_namespace (PodName node) = inr pod
          /\ v1.PodSpec_Containers (v1.Pod_Spec pod) = container :: others
          /\ PodDetails status !! PodName node
             = Some {| Worker := v1.PodSpec_NodeName (v1.Pod_Spec pod);
                       CPU := resource.String
                                (v1.Cpu (v1.Requests (v1.Container_Resources container)));
                       Memory := resource.String
                                   (v1.Memory
                                      (v1.Requests (v1.Container_Resources container))) |}).
Proof.
  intros Hdecoded Hrun.
  destruct (GetRedisStatus_returned _ _ _ _ _ Hdecoded Hrun) as (podDetails & Hloop & Hreport).
  assert (Hdetails : PodDetails status = podDetails) by apply Hreport.
  rewrite Hdetails.
  destruct (PodDetails_loop_outcome kc (Nodes (ClusterStatus_Cluster clusterStatus)) ∅ [])
    as [Hall|[out' Hpanic]]; [|congruence].
  apply PodDetails_loop_lookup in Hloop as [-> Hlookup].
  assert (Hnode : forall node,
             node ∈ Nodes (ClusterStatus_Cluster clusterStatus) ->
             exists pod container others,
               Pods_Get (Client kc) redis_namespace (PodName node) = inr pod
               /\ v1.PodSpec_Containers (v1.Pod_Spec pod) = container :: others
               /\ podDetails !! PodName node
                  = Some {| Worker := v1.PodSpec_NodeName (v1.Pod_Spec pod);
                            CPU := resource.String
                                     (v1.Cpu (v1.Requests (v1.Container_Resources container)));
                            Memory := resource.String
                                        (v1.Memory
                                           (v1.Requests
                                              (v1.Container_Resources container))) |}).
  { intros node Hin. rewrite Forall_forall in Hall.
    destruct (Hall node Hin) as (pod & Hget & Hcontainers).
    destruct (v1.PodSpec_Containers (v1.Pod_Spec pod)) as [|container others] eqn:Hc;
      [done|].
    exists pod, container, others. split_and!; [done..|].
    rewrite Hlookup, decide_True by (apply list_elem_of_fmap; eauto).
    unfold enrichment. by rewrite Hget, Hc. }
  split_and!; [done | | done].
  intros Name. split.
  - intros Hsome. rewrite Hlookup in Hsome.
    destruct (decide (Name ∈ PodName <$> Nodes (ClusterStatus_Cluster clusterStatus)))
      as [Hin|_].
    + apply list_elem_of_fmap in Hin as (node & -> & Hin). by exists node.
    + rewrite lookup_empty in Hsome. by destruct Hsome.
  - intros (node & Hin & <-).
    destruct (Hnode node Hin) as (pod & container & others & _ & _ & ->). done.
Qed.

Lemma PodDetails_of_the_report_witness :
  decodes_to decodeClusterStatus kc_healthy status_decoded
  /\ exists status,
       run (GetRedisStatus decodeClusterStatus kc_healthy) = (Returned status, [])
       /\ (is_Some (PodDetails status !! "rediscluster-0")
           <-> exists node,
                 node ∈ Nodes (ClusterStatus_Cluster status_decoded)
                 /\ PodName node = "rediscluster-0").
Proof.
  split; [exact healthy_cluster_decodes|].
  eexists. split; [vm_compute; reflexivity|].
  refine (proj1 (proj2 (PodDetails_of_the_report decodeClusterStatus kc_healthy
                          status_decoded _ [] healthy_cluster_decodes _)) _).
  vm_compute. reflexivity.
Defined.

(** X6. In every report [GetRedisStatus] returns for a decoded status:
    [PodStatus] holds exactly when the number of pods equals the number of
    ready pods, [ClusterState] exactly when the status text is "OK" (and no
    other spelling), [PrimariesConfigured] and [NumberPrimariesInZone] are
    the number of primaries, [ReplicasConfigured] is the maximal replication
    factor, [ClusterSize] the number of pods, and [RedisNodeDetails] the node
    list as decoded. *)
Theorem derived_fields_of_the_report (json_Unmarshal : json -> error + ClusterStatus)
    (kc : K8sClient) (clusterStatus : ClusterStatus) (status : RedisStatus)
    (out : list string) :
  decodes_to json_Unmarshal kc clusterStatus ->
  run (GetRedisStatus json_Unmarshal kc) = (Returned status, out) ->
  let cluster := ClusterStatus_Cluster clusterStatus in
  (PodStatus status = true <-> NumberOfPods cluster = NumberOfPodsReady cluster)
  /\ (ClusterState status = true <-> Cluster_Status cluster = "OK")
  /\ PrimariesConfigured status = NumberOfPrimaries cluster
  /\ NumberPrimariesInZone status = NumberOfPrimaries cluster
  /\ ReplicasConfigured status = MaxReplicationFactor cluster
  /\ ClusterSize status = NumberOfPods cluster
  /\ RedisNodeDetails status = Nodes cluster.
Proof.
  intros Hdecoded Hrun cluster.
  destruct (GetRedisStatus_returned _ _ _ _ _ Hdecoded Hrun) as (podDetails & _ & Hreport).
  destruct Hreport as (Hp & Hr & Hps & Hcs & _ & _ & Hsize & _ & _ & _ & Hnodes & _ & Hz & _).
  rewrite Hps, Hcs, !bool_decide_eq_true. by split_and!.
Qed.

Lemma derived_fields_of_the_report_witness :
  decodes_to decodeClusterStatus kc_healthy status_decoded
  /\ exists status,
       run (GetRedisStatus decodeClusterStatus kc_healthy) = (Returned status, [])
       /\ (ClusterState status = true
           <-> Cluster_Status (ClusterStatus_Cluster status_decoded) = "OK").
Proof.
  split; [exact healthy_cluster_decodes|].
  eexists. split; [vm_compute; reflexivity|].
  refine (proj1 (proj2 (derived_fields_of_the_report decodeClusterStatus kc_healthy
                          status_decoded _ [] healthy_cluster_decodes _))).
  vm_compute. reflexivity.
Defined.

Lemma size_list_to_set_le (l : list string) :
  (size (list_to_set l : gset string) <= length l)%nat.
Proof.
  induction l as [|x rest IH]; cbn [list_to_set length].
  - by rewrite size_empty.
  - rewrite size_union_alt, size_singleton.
    assert (size (list_to_set rest ∖ {[x]} : gset string)
            <= size (list_to_set rest : gset string))%nat
      by (apply subseteq_size; set_solver).
    lia.
Qed.

(** X7. In every report [GetRedisStatus] returns for a decoded status, the
    number of active zones and the number of enrichment entries are at most
    the number of known nodes, and the number of active zones is 0 only for
    an empty node list. *)
Theorem counts_of_the_report_are_bounded (json_Unmarshal : json -> error + ClusterStatus)
    (kc : K8sClient) (clusterStatus : ClusterStatus) (status : RedisStatus)
    (out : list string) :
  decodes_to json_Unmarshal kc clusterStatus ->
  run (GetRedisStatus json_Unmarshal kc) = (Returned status, out) ->
  0 <= NumberActiveZones status <= ClusterKnownNodes status
  /\ (NumberActiveZones status = 0 <-> Nodes (ClusterStatus_Cluster clusterStatus) = [])
  /\ Z.of_nat (size (PodDetails status)) <= ClusterKnownNodes status.
Proof.
  intros Hdecoded Hrun.
  destruct (GetRedisStatus_returned _ _ _ _ _ Hdecoded Hrun) as (podDetails & Hloop & Hreport).
  destruct Hreport as (_ & _ & _ & _ & _ & -> & _ & _ & _ & -> & _ & _ & _ & ->).
  set (nodes := Nodes (ClusterStatus_Cluster clusterStatus)) in *.
  assert (Hzones : size (zoneMap_of nodes) = size (list_to_set (Zone <$> nodes) : gset string))
    by (by rewrite <- size_dom, zoneMap_of_dom).
  pose proof (size_list_to_set_le (Zone <$> nodes)) as Hle.
  rewrite length_fmap in Hle.
  unfold activeZones. rewrite Hzones. split_and!; [lia | lia | |].
  - split.
    + intros Hzero. destruct nodes as [|node rest]; [done|]. exfalso.
      assert (Hempty : (list_to_set (Zone <$> node :: rest) : gset string) ≡ ∅)
        by (apply size_empty_iff; lia).
      set_solver.
    + intros ->. done.
  - apply PodDetails_loop_lookup in Hloop as [_ Hlookup].
    assert (Hdom : dom podDetails = list_to_set (PodName <$> nodes)).
    { apply set_eq. intros Name.
      rewrite elem_of_dom, Hlookup, elem_of_list_to_set.
      destruct (decide (Name ∈ PodName <$> nodes)) as [Hin|Hnotin].
      - split; [done|]. intros _.
        destruct (PodDetails_loop_outcome kc nodes ∅ []) as [Hall|[out' Hpanic]].
        + apply list_elem_of_fmap in Hin as (node & -> & Hin).
          rewrite Forall_forall in Hall.
          destruct (Hall node Hin) as (pod & Hget & Hcontainers).
          unfold enrichment. rewrite Hget.
          by destruct (v1.PodSpec_Containers (v1.Pod_Spec pod)).
        + destruct (GetRedisStatus_returned _ _ _ _ _ Hdecoded Hrun)
            as (podDetails' & Hloop' & _).
          fold nodes in Hloop'. congruence.
      - rewrite lookup_empty. split; [by intros [? ?] | done]. }
    rewrite <- size_dom, Hdom.
    pose proof (size_list_to_set_le (PodName <$> nodes)) as Hle'.
    rewrite length_fmap in Hle'. lia.
Qed.

Lemma counts_of_the_report_are_bounded_witness :
  decodes_to decodeClusterStatus kc_healthy status_decoded
  /\ exists status,
       run (GetRedisStatus decodeClusterStatus kc_healthy) = (Returned status, [])
       /\ 0 <= NumberActiveZones status <= ClusterKnownNodes status.
Proof.
  split; [exact healthy_cluster_decodes|].
  eexists. split; [vm_compute; reflexivity|].
  refine (proj1 (counts_of_the_report_are_bounded decodeClusterStatus kc_healthy
                   status_decoded _ [] healthy_cluster_decodes _)).
  vm_compute. reflexivity.
Defined.

(** ** ResourceUsageAggregator: what the report holds *)

Lemma podMetricsMap_lookup_from (items : list metricsv1beta1.PodMetrics)
    (podMetricsMap : gmap string metricsv1beta1.PodMetrics) (key : string) :
  key ∉ metricsKey <$> items ->
  foldl (fun podMetricsMap podMetrics =>
           <[podKey (metricsv1beta1.PodMetrics_Namespace podMetrics)
                    (metricsv1beta1.PodMetrics_Name podMetrics) := podMetrics]> podMetricsMap)
        podMetricsMap items !! key
  = podMetricsMap !! key.
Proof.
  revert podMetricsMap.
  induction items as [|podMetrics rest IH]; intros podMetricsMap Hkey; [done|].
  cbn [foldl]. rewrite fmap_cons in Hkey. apply not_elem_of_cons in Hkey as [Hne Hrest].
  rewrite IH by done. by apply lookup_insert_ne.
Qed.

Lemma podMetricsMap_of_dom (items : list metricsv1beta1.PodMetrics) :
  dom (podMetricsMap_of items) = list_to_set (metricsKey <$> items).
Proof.
  induction items as [|podMetrics items IH] using rev_ind; [set_solver|].
  rewrite podMetricsMap_of_snoc, dom_insert_L, IH, fmap_app. set_solver.
Qed.

Lemma podMetricsMap_of_None (items : list metricsv1beta1.PodMetrics) (key : string) :
  podMetricsMap_of items !! key = None <-> key ∉ metricsKey <$> items.
Proof.
  rewrite <- not_elem_of_dom, podMetricsMap_of_dom. set_solver.
Qed.

(** X8. The index of the metrics snapshot holds under a key the last entry of
    the listing with that namespace and name, and holds nothing under a key
    that no entry has. *)
Theorem podMetricsMap_last_entry_wins (podMetricsList : list metricsv1beta1.PodMetrics) :
  (forall before podMetrics after,
     podMetricsList = before ++ podMetrics :: after ->
     metricsKey podMetrics ∉ metricsKey <$> after ->
     podMetricsMap_of podMetricsList
       !! podKey (metricsv1beta1.PodMetrics_Namespace podMetrics)
                 (metricsv1beta1.PodMetrics_Name podMetrics)
     = Some podMetrics)
  /\ (forall namespace Name,
        podMetricsMap_of podMetricsList !! podKey namespace Name = None
        <-> forall podMetrics,
              podMetrics ∈ podMetricsList ->
              podKey (metricsv1beta1.PodMetrics_Namespace podMetrics)
                     (metricsv1beta1.PodMetrics_Name podMetrics)
              <> podKey namespace Name).
Proof.
  split.
  - intros before podMetrics after -> Hafter.
    unfold podMetricsMap_of. rewrite foldl_app. cbn [foldl].
    rewrite podMetricsMap_lookup_from by done.
    apply lookup_insert_eq.
  - intros namespace Name. rewrite podMetricsMap_of_None, list_elem_of_fmap.
    unfold metricsKey. split.
    + intros Hnone podMetrics Hin Hkey. apply Hnone. by exists podMetrics.
    + intros Hall (podMetrics & Hkey & Hin). by apply (Hall podMetrics).
Qed.

Lemma podMetricsMap_last_entry_wins_witness :
  metrics_twice
  = [metrics_of redis_namespace "rediscluster-0" "redis-node" q250m q512Mi]
    ++ metrics_of redis_namespace "rediscluster-0" "redis-node" q500m q512Mi :: []
  /\ podMetricsMap_of metrics_twice !! podKey redis_namespace "rediscluster-0"
     = Some (metrics_of redis_namespace "rediscluster-0" "redis-node" q500m q512Mi).
Proof.
  split; [reflexivity|].
  refine (proj1 (podMetricsMap_last_entry_wins metrics_twice)
            [metrics_of redis_namespace "rediscluster-0" "redis-node" q250m q512Mi]
            (metrics_of redis_namespace "rediscluster-0" "redis-node" q500m q512Mi)
            [] eq_refl _).
  intros Hin. by apply elem_of_nil in Hin.
Defined.

Lemma podsUsage_loop_prints (podMetricsMap : gmap string metricsv1beta1.PodMetrics)
    (items : list v1.Pod) (report : ResourceUsageReport) (out : list string) :
  podsUsage_loop podMetricsMap items report out
  = (Returned {| PodsUsage := PodsUsage report ++ (podUsage_of podMetricsMap <$> items) |},
     out ++ (no_metrics_line
               <$> filter (fun pod =>
                             podMetricsMap !! podKey (v1.Pod_Namespace pod) (v1.Pod_Name pod)
                             = None) items)).
Proof.
  revert report out. induction items as [|pod rest IH]; intros report out.
  - cbn. rewrite !app_nil_r. by destruct report.
  - cbn [podsUsage_loop]. unfold podUsage_step, bind. rewrite filter_cons.
    destruct (podMetricsMap !! podKey (v1.Pod_Namespace pod) (v1.Pod_Name pod))
      as [podMetrics|] eqn:Hlookup.
    + cbn [ret]. rewrite IH, decide_False by done. cbn [PodsUsage fmap list_fmap].
      rewrite <- app_assoc. unfold podUsage_of at 2. by rewrite Hlookup.
    + cbn [ret Printf]. rewrite IH, decide_True by done. cbn [PodsUsage fmap list_fmap].
      rewrite <- !app_assoc. unfold podUsage_of at 2. by rewrite Hlookup.
Qed.

(** X9. With both listings fetched, the report holds one pod usage per pod of
    the listing, in listing order and under its name and namespace; the usage
    of a pod that has no entry in the metrics snapshot has no container
    usages, and the aggregator prints one line for each such pod, in listing
    order, and nothing else. *)
Theorem one_usage_per_pod (kc : K8sClient) (pods : list v1.Pod)
    (podMetricsList : list metricsv1beta1.PodMetrics) :
  Pods_List (Client kc) "" = inr pods ->
  PodMetricses_List (MetricsClient kc) "" = inr podMetricsList ->
  exists report,
    run (GetResourceUsageReport kc)
    = (Returned report, no_metrics_line <$> filter (without_metrics podMetricsList) pods)
    /\ (fun podusage => (PodUsage_Namespace podusage, PodUsage_PodName podusage))
         <$> PodsUsage report
       = (fun pod => (v1.Pod_Namespace pod, v1.Pod_Name pod)) <$> pods
    /\ (forall i pod podusage,
          pods !! i = Some pod ->
          PodsUsage report !! i = Some podusage ->
          without_metrics podMetricsList pod ->
          ContainerUsages podusage = []).
Proof.
  intros Hpods Hmetrics. eexists. split_and!.
  - unfold run, GetResourceUsageReport, bind. rewrite Hpods. cbn [ret].
    rewrite Hmetrics. cbn [ret]. rewrite podsUsage_loop_prints. cbn [PodsUsage app].
    f_equal. f_equal. apply list_filter_iff. intros pod.
    apply podMetricsMap_of_None.
  - cbn [PodsUsage]. rewrite <- list_fmap_compose. done.
  - intros i pod podusage Hpod Hpodusage Hwithout. cbn [PodsUsage] in Hpodusage.
    rewrite list_lookup_fmap, Hpod in Hpodusage. injection Hpodusage as <-.
    unfold podUsage_of. cbn [ContainerUsages].
    by rewrite (proj2 (podMetricsMap_of_None podMetricsList _) Hwithout).
Qed.

Lemma one_usage_per_pod_witness :
  Pods_List (Client kc_healthy) "" = inr all_pods
  /\ PodMetricses_List (MetricsClient kc_healthy) "" = inr all_metrics
  /\ exists report,
       run (GetResourceUsageReport kc_healthy)
       = (Returned report, no_metrics_line <$> filter (without_metrics all_metrics) all_pods)
       /\ (fun podusage => (PodUsage_Namespace podusage, PodUsage_PodName podusage))
            <$> PodsUsage report
          = (fun pod => (v1.Pod_Namespace pod, v1.Pod_Name pod)) <$> all_pods
       /\ (forall i pod podusage,
             all_pods !! i = Some pod ->
             PodsUsage report !! i = Some podusage ->
             without_metrics all_metrics pod ->
             ContainerUsages podusage = []).
Proof.
  split; [reflexivity|]. split; [reflexivity|].
  exact (one_usage_per_pod kc_healthy all_pods all_metrics eq_refl eq_refl).
Defined.

Example healthy_cluster_prints_missing_metrics :
  (run (GetResourceUsageReport kc_healthy)).2
  = ["No metrics available for pod: default/migrate-7xk2p" +:+ nl;
     "No metrics available for pod: default/web-0" +:+ nl].
Proof. vm_compute. reflexivity. Qed.

Lemma containerUsage_steps (container : v1.Container)
    (containers : list metricsv1beta1.ContainerMetrics) (usages : list ContainerUsage) :
  foldl (containerUsage_step container) usages containers
  = usages
    ++ (containerUsage_of container
          <$> filter (fun containerMetrics =>
                        v1.Container_Name container
                        = metricsv1beta1.ContainerMetrics_Name containerMetrics)
                     containers).
Proof.
  revert usages. induction containers as [|containerMetrics rest IH]; intros usages.
  - cbn. by rewrite app_nil_r.
  - cbn [foldl]. rewrite IH, filter_cons. unfold containerUsage_step at 1.
    case_bool_decide.
    + rewrite decide_True by done. by rewrite <- app_assoc.
    + by rewrite decide_False by done.
Qed.

Lemma containerUsages_of_spec (containers : list v1.Container)
    (podMetrics : metricsv1beta1.PodMetrics) :
  containerUsages_of containers podMetrics
  = containers ≫= (fun container =>
      containerUsage_of container
        <$> filter (fun containerMetrics =>
                      v1.Container_Name container
                      = metricsv1beta1.ContainerMetrics_Name containerMetrics)
                   (metricsv1beta1.Containers podMetrics)).
Proof.
  unfold containerUsages_of.
  assert (Hfrom : forall usages,
             foldl (fun usages container =>
                      foldl (containerUsage_step container) usages
                            (metricsv1beta1.Containers podMetrics))
                   usages containers
             = usages
               ++ (containers ≫= (fun container =>
                     containerUsage_of container
                       <$> filter (fun containerMetrics =>
                                     v1.Container_Name container
                                     = metricsv1beta1.ContainerMetrics_Name containerMetrics)
                                  (metricsv1beta1.Containers podMetrics)))).
  { induction containers as [|container rest IH]; intros usages.
    - cbn. by rewrite app_nil_r.
    - cbn [foldl]. rewrite IH, containerUsage_steps, bind_cons. by rewrite <- app_assoc. }
  apply Hfrom.
Qed.

Lemma names_of_distinct_metrics (Name : string)
    (containers : list metricsv1beta1.ContainerMetrics) :
  NoDup (metricsv1beta1.ContainerMetrics_Name <$> containers) ->
  length (filter (fun containerMetrics =>
                    Name = metricsv1beta1.ContainerMetrics_Name containerMetrics)
                 containers)
  = if decide (Name ∈ metricsv1beta1.ContainerMetrics_Name <$> containers)
    then 1%nat else 0%nat.
Proof.
  induction containers as [|containerMetrics rest IH]; [done|].
  rewrite fmap_cons. intros [Hnotin Hnodup]%NoDup_cons.
  rewrite filter_cons.
  destruct (decide (Name = metricsv1beta1.ContainerMetrics_Name containerMetrics))
    as [->|Hne]; cbn [length]; rewrite (IH Hnodup).
  - rewrite decide_False by done.
    by rewrite decide_True by apply list_elem_of_here.
  - destruct (decide (Name ∈ metricsv1beta1.ContainerMetrics_Name <$> rest)) as [Hin|Hno].
    + by rewrite decide_True by (by apply list_elem_of_further).
    + by rewrite decide_False by (intros [?|?]%elem_of_cons; done).
Qed.

Lemma containerUsages_of_names (containers : list v1.Container)
    (podMetrics : metricsv1beta1.PodMetrics) :
  NoDup (metricsv1beta1.ContainerMetrics_Name <$> metricsv1beta1.Containers podMetrics) ->
  ContainerUsage_Name <$> containerUsages_of containers podMetrics
  = filter (fun Name => Name ∈ metricsv1beta1.ContainerMetrics_Name
                               <$> metricsv1beta1.Containers podMetrics)
           (v1.Container_Name <$> containers).
Proof.
  intros Hnodup. rewrite containerUsages_of_spec.
  induction containers as [|container rest IH]; [done|].
  rewrite bind_cons, fmap_app, IH, fmap_cons, filter_cons.
  pose proof (names_of_distinct_metrics (v1.Container_Name container) _ Hnodup) as Hlength.
  destruct (filter _ (metricsv1beta1.Containers podMetrics)) as [|first [|second others]];
    cbn [length] in Hlength;
    destruct (decide (v1.Container_Name container
                      ∈ metricsv1beta1.ContainerMetrics_Name
                          <$> metricsv1beta1.Containers podMetrics));
    done.
Qed.

(** X10. For a pod that has an entry in the metrics index, the container
    usages of its pod usage are exactly the usages of a container of the pod
    against a metrics entry of the same name (a container without one is left
    out without notice), each computed from the used and the requested
    quantities with an unlisted quantity counting as zero; when the metrics
    entry names each container once, they come in the order of the pod's
    containers, one per container that has metrics. *)
Theorem container_usages_of_a_pod (kc : K8sClient) (pods : list v1.Pod)
    (podMetricsList : list metricsv1beta1.PodMetrics) (report : ResourceUsageReport)
    (out : list string) (i : nat) (pod : v1.Pod) (podMetrics : metricsv1beta1.PodMetrics) :
  Pods_List (Client kc) "" = inr pods ->
  PodMetricses_List (MetricsClient kc) "" = inr podMetricsList ->
  run (GetResourceUsageReport kc) = (Returned report, out) ->
  pods !! i = Some pod ->
  podMetricsMap_of podMetricsList !! podKey (v1.Pod_Namespace pod) (v1.Pod_Name pod)
  = Some podMetrics ->
  exists podusage,
    PodsUsage report !! i = Some podusage
    /\ (forall usage,
          usage ∈ ContainerUsages podusage
          <-> exists container containerMetrics,
                container ∈ v1.PodSpec_Containers (v1.Pod_Spec pod)
                /\ containerMetrics ∈ metricsv1beta1.Containers podMetrics
                /\ v1.Container_Name container
                   = metricsv1beta1.ContainerMetrics_Name containerMetrics
                /\ usage = containerUsage_of container containerMetrics)
    /\ (NoDup (metricsv1beta1.ContainerMetrics_Name <$> metricsv1beta1.Containers podMetrics) ->
        ContainerUsage_Name <$> ContainerUsages podusage
        = filter (fun Name => Name ∈ metricsv1beta1.ContainerMetrics_Name
                                     <$> metricsv1beta1.Containers podMetrics)
                 (v1.Container_Name <$> v1.PodSpec_Containers (v1.Pod_Spec pod))).
Proof.
  intros Hpods Hmetrics Hrun Hpod Hlookup.
  destruct (GetResourceUsageReport_fetched kc pods podMetricsList Hpods Hmetrics)
    as [out' Hfetched].
  rewrite Hfetched in Hrun. injection Hrun as <- _.
  exists (podUsage_of (podMetricsMap_of podMetricsList) pod).
  cbn [PodsUsage]. rewrite list_lookup_fmap, Hpod.
  unfold podUsage_of. cbn [ContainerUsages]. rewrite Hlookup.
  split_and!; [cbn; by rewrite Hlookup | | apply containerUsages_of_names].
  intros usage. rewrite containerUsages_of_spec, list_elem_of_bind. split.
  - intros (container & Husage & Hcontainer).
    apply list_elem_of_fmap in Husage as (containerMetrics & -> & Hin).
    apply list_elem_of_filter in Hin as [Hname Hin].
    by exists container, containerMetrics.
  - intros (container & containerMetrics & Hcontainer & Hin & Hname & ->).
    exists container. split; [|done].
    apply list_elem_of_fmap. exists containerMetrics. split; [done|].
    by apply list_elem_of_filter.
Qed.

Lemma container_usages_of_a_pod_witness :
  podMetricsMap_of all_metrics
    !! podKey (v1.Pod_Namespace rediscluster_0) (v1.Pod_Name rediscluster_0)
  = Some (metrics_of redis_namespace "rediscluster-0" "redis-node" q250m q512Mi)
  /\ exists report out,
       run (GetResourceUsageReport kc_healthy) = (Returned report, out)
       /\ exists podusage,
            PodsUsage report !! 0%nat = Some podusage
            /\ ContainerUsage_Name <$> ContainerUsages podusage = ["redis-node"].
Proof.
  assert (Hlookup : podMetricsMap_of all_metrics
                      !! podKey (v1.Pod_Namespace rediscluster_0) (v1.Pod_Name rediscluster_0)
                    = Some (metrics_of redis_namespace "rediscluster-0" "redis-node"
                              q250m q512Mi))
    by (vm_compute; reflexivity).
  split; [exact Hlookup|].
  destruct (GetResourceUsageReport_fetched kc_healthy all_pods all_metrics eq_refl eq_refl)
    as [out Hrun].
  eexists _, out. split; [exact Hrun|].
  destruct (container_usages_of_a_pod kc_healthy all_pods all_metrics _ out 0 rediscluster_0
              (metrics_of redis_namespace "rediscluster-0" "redis-node" q250m q512Mi)
              eq_refl eq_refl Hrun eq_refl Hlookup)
    as (podusage & Hpodusage & _ & Hnames).
  exists podusage. split; [exact Hpodusage|].
  rewrite Hnames; [reflexivity|]. apply NoDup_singleton.
Defined.

(** ** RemoteExecutor and what is built on it *)

Lemma ExecuteRemoteCommand_outcome (sys : Platform) (kc : K8sClient)
    (namespace pod container command : string) (out : list string) :
  ExecuteRemoteCommand sys kc namespace pod container command out
  = match BuildConfigFromFlags sys with
    | inl err => (Panicked err, out)
    | inr config =>
        let request := exec_request namespace pod container command in
        match NewSPDYExecutor sys config request with
        | Some _ => (Panicked nil_dereference, out)
        | None =>
            (Returned ((Stream sys config request).1.1, (Stream sys config request).1.2,
                       None), out)
        end
    end.
Proof.
  unfold ExecuteRemoteCommand, bind.
  destruct (BuildConfigFromFlags sys) as [err|config]; [done|]. cbn [ret].
  by destruct (NewSPDYExecutor sys config _).
Qed.

(** X11. [ExecuteRemoteCommand] returns exactly when the client configuration
    can be built and the executor created, and then hands back what the
    stream wrote to the two buffers; it panics with the text of the error
    when the configuration cannot be built, and on the nil executor when the
    executor cannot be created. It prints nothing. *)
Theorem ExecuteRemoteCommand_returns_iff (sys : Platform) (kc : K8sClient)
    (namespace pod container command : string) :
  (returns (ExecuteRemoteCommand sys kc namespace pod container command)
   <-> exec_opens sys namespace pod container command)
  /\ (forall config,
        BuildConfigFromFlags sys = inr config ->
        NewSPDYExecutor sys config (exec_request namespace pod container command) = None ->
        run (ExecuteRemoteCommand sys kc namespace pod container command)
        = (Returned ((Stream sys config
                        (exec_request namespace pod container command)).1.1,
                     (Stream sys config
                        (exec_request namespace pod container command)).1.2,
                     None), []))
  /\ (forall err,
        BuildConfigFromFlags sys = inl err ->
        run (ExecuteRemoteCommand sys kc namespace pod container command)
        = (Panicked err, []))
  /\ (forall config err,
        BuildConfigFromFlags sys = inr config ->
        NewSPDYExecutor sys config (exec_request namespace pod container command)
        = Some err ->
        run (ExecuteRemoteCommand sys kc namespace pod container command)
        = (Panicked nil_dereference, [])).
Proof.
  unfold run, returns, exec_opens, run.
  rewrite ExecuteRemoteCommand_outcome.
  destruct (BuildConfigFromFlags sys) as [err|config] eqn:Hconfig.
  - split_and!; try done.
    + split; [by intros (? & ? & ?) | by intros (? & ? & _)].
    + by intros ? [= ->].
  - cbn zeta.
    destruct (NewSPDYExecutor sys config _) as [err|] eqn:Hexec.
    + split_and!; try done.
      * split; [by intros (? & ? & ?)|]. intros (config' & [= <-] & Hnone). congruence.
      * intros config' [= <-] Hnone. congruence.
    + split_and!; try done.
      * split; [intros _; by exists config | intros _; by eexists _, _].
      * by intros config' [= <-] _.
      * intros config' err [= <-] Hsome. congruence.
Qed.

Lemma ExecuteRemoteCommand_returns_iff_witness :
  BuildConfigFromFlags sys_no_config
  = inl "invalid configuration: no configuration has been provided"
  /\ run (ExecuteRemoteCommand sys_no_config kc_healthy redis_namespace "rediscluster-0"
            "redis-node" "redis-cli ping")
     = (Panicked "invalid configuration: no configuration has been provided", [])
  /\ run (ExecuteRemoteCommand sys_ok kc_healthy redis_namespace "rediscluster-0"
            "redis-node" "redis-cli ping")
     = (Returned ("rediscluster-0$ redis-cli ping", "", None), []).
Proof.
  split; [reflexivity|]. split.
  - exact (proj1 (proj2 (proj2 (ExecuteRemoteCommand_returns_iff sys_no_config kc_healthy
                                  redis_namespace "rediscluster-0" "redis-node"
                                  "redis-cli ping"))) _ eq_refl).
  - exact (proj1 (proj2 (ExecuteRemoteCommand_returns_iff sys_ok kc_healthy
                           redis_namespace "rediscluster-0" "redis-node"
                           "redis-cli ping")) _ eq_refl eq_refl).
Defined.

Lemma FlushRedisData_loop_returns_nil (sys : Platform) (kc : K8sClient)
    (items : list v1.Pod) (returnSize : list RedisDbSizeInfo) (out out' : list string)
    (result : option error) :
  FlushRedisData_loop sys kc items returnSize out = (Returned result, out') ->
  result = None /\ out' = out.
Proof.
  revert returnSize.
  induction items as [|pod rest IH]; intros returnSize; cbn [FlushRedisData_loop].
  - by intros [= <- <-].
  - unfold bind at 1. rewrite ExecuteRemoteCommand_outcome.
    destruct (BuildConfigFromFlags sys) as [err|config]; [done|]. cbn zeta.
    destruct (NewSPDYExecutor sys config _); [done|]. cbn [snd]. apply IH.
Qed.

(** X12. [FlushRedisData] never reports a failure: whenever it returns, the
    error it returns is nil and nothing was printed, whether the pods could
    not be listed, or the flush command failed in the stream, or it went
    through. *)
Theorem FlushRedisData_returns_nil (sys : Platform) (kc : K8sClient) :
  (forall result out,
     run (FlushRedisData sys kc) = (Returned result, out) -> result = None /\ out = [])
  /\ (forall err,
        Pods_List (Client kc) redis_namespace = inl err ->
        run (FlushRedisData sys kc) = (Returned None, []))
  /\ (forall config items,
        Pods_List (Client kc) redis_namespace = inr items ->
        BuildConfigFromFlags sys = inr config ->
        (forall pod, pod ∈ items ->
           NewSPDYExecutor sys config
             (exec_request redis_namespace (v1.Pod_Name pod) redis_container
                (redis_cli "flushall")) = None) ->
        run (FlushRedisData sys kc) = (Returned None, [])).
Proof.
  unfold run, FlushRedisData. split_and!.
  - intros result out.
    destruct (Pods_List (Client kc) redis_namespace) as [err|items].
    + by intros [= <- <-].
    + apply FlushRedisData_loop_returns_nil.
  - by intros err ->.
  - intros config items -> Hconfig Hexec.
    generalize (@nil RedisDbSizeInfo).
    induction items as [|pod rest IH]; intros returnSize; cbn [FlushRedisData_loop]; [done|].
    unfold bind at 1. rewrite ExecuteRemoteCommand_outcome, Hconfig. cbn zeta.
    rewrite Hexec by apply list_elem_of_here. cbn [snd].
    apply IH. intros p Hp. by apply Hexec, list_elem_of_further.
Qed.

Lemma FlushRedisData_returns_nil_witness :
  Pods_List (Client kc_healthy) redis_namespace = inr [rediscluster_0; rediscluster_1]
  /\ BuildConfigFromFlags sys_stream_fails = inr {| Host := "https://10.0.0.1:6443" |}
  /\ run (FlushRedisData sys_stream_fails kc_healthy) = (Returned None, []).
Proof.
  split; [reflexivity|]. split; [reflexivity|].
  exact (proj2 (proj2 (FlushRedisData_returns_nil sys_stream_fails kc_healthy))
           _ _ eq_refl eq_refl (fun _ _ => eq_refl)).
Defined.

(** X13. When the pods of the data store are listed and the exec channel
    opens for each of them, [GetRedisDbSize] returns one entry per pod, in
    listing order, under the name of the pod, holding what the stream wrote to
    its output buffer for one and the same command; when the pods cannot be
    listed it returns no entry. *)
Theorem GetRedisDbSize_one_entry_per_pod (sys : Platform) (kc : K8sClient) :
  (forall config items,
     Pods_List (Client kc) redis_namespace = inr items ->
     BuildConfigFromFlags sys = inr config ->
     (forall pod, pod ∈ items ->
        NewSPDYExecutor sys config
          (exec_request redis_namespace (v1.Pod_Name pod) redis_container
             (redis_cli "dbsize")) = None) ->
     run (GetRedisDbSize sys kc)
     = (Returned
          ((fun pod =>
              {| RedisDbSizeInfo_PodName := v1.Pod_Name pod;
                 Output := (Stream sys config
                              (exec_request redis_namespace (v1.Pod_Name pod)
                                 redis_container (redis_cli "dbsize"))).1.1 |})
             <$> items), []))
  /\ (forall err,
        Pods_List (Client kc) redis_namespace = inl err ->
        run (GetRedisDbSize sys kc) = (Returned [], [])).
Proof.
  unfold run, GetRedisDbSize. split.
  - intros config items -> Hconfig Hexec.
    assert (Hfrom : forall returnSize,
               GetRedisDbSize_loop sys kc items returnSize []
               = (Returned
                    (returnSize
                     ++ ((fun pod =>
                            {| RedisDbSizeInfo_PodName := v1.Pod_Name pod;
                               Output := (Stream sys config
                                            (exec_request redis_namespace (v1.Pod_Name pod)
                                               redis_container (redis_cli "dbsize"))).1.1 |})
                           <$> items)), [])).
    { induction items as [|pod rest IH]; intros returnSize; cbn [GetRedisDbSize_loop].
      - cbn. by rewrite app_nil_r.
      - unfold bind at 1. rewrite ExecuteRemoteCommand_outcome, Hconfig. cbn zeta.
        rewrite Hexec by apply list_elem_of_here. cbn [snd fst].
        unfold bind at 1. cbn [ret].
        rewrite IH by (intros p Hp; by apply Hexec, list_elem_of_further).
        by rewrite fmap_cons, <- app_assoc. }
    apply Hfrom.
  - by intros err ->.
Qed.

Lemma GetRedisDbSize_one_entry_per_pod_witness :
  Pods_List (Client kc_healthy) redis_namespace = inr [rediscluster_0; rediscluster_1]
  /\ RedisDbSizeInfo_PodName <$> match (run (GetRedisDbSize sys_ok kc_healthy)).1 with
                                 | Returned entries => entries
                                 | _ => []
                                 end
     = ["rediscluster-0"; "rediscluster-1"].
Proof.
  split; [reflexivity|].
  rewrite (proj1 (GetRedisDbSize_one_entry_per_pod sys_ok kc_healthy)
             {| Host := "https://10.0.0.1:6443" |} [rediscluster_0; rediscluster_1]
             eq_refl eq_refl (fun _ _ => eq_refl)).
  reflexivity.
Defined.

(** X14. [SetDebugLevel] answers [true] whenever it returns, also when the
    command failed in the stream: by then it has printed the command and what
    the stream wrote to the output buffer, and the command is the HTTP GET on
    port 9090 with the level as given. *)
Theorem SetDebugLevel_returns_true (sys : Platform) (kc : K8sClient)
    (namespace pod container debugLevel : string) (result : bool) (out : list string) :
  run (SetDebugLevel sys kc namespace pod container debugLevel) = (Returned result, out) ->
  result = true
  /\ exists config,
       BuildConfigFromFlags sys = inr config
       /\ out = [ ("curl http://127.0.0.1:9090/tenv/eTrace/enable?filter=all\&level="
                   +:+ debugLevel) +:+ nl;
                  (Stream sys config
                     (exec_request namespace pod container
                        ("curl http://127.0.0.1:9090/tenv/eTrace/enable?filter=all\&level="
                         +:+ debugLevel))).1.1 +:+ nl ].
Proof.
  unfold run, SetDebugLevel. unfold bind at 1. cbn [Println].
  unfold bind at 1. rewrite ExecuteRemoteCommand_outcome.
  destruct (BuildConfigFromFlags sys) as [err|config]; [done|]. cbn zeta.
  destruct (NewSPDYExecutor sys config _); [done|]. cbn [snd fst].
  unfold bind, Println, ret. intros [= <- <-]. split; [done|].
  by exists config.
Qed.

Lemma SetDebugLevel_returns_true_witness :
  exists result out,
    run (SetDebugLevel sys_stream_fails kc_healthy "default" "web-0" "web" "DEBUG_3")
    = (Returned result, out)
    /\ result = true.
Proof.
  eexists _, _. split; [reflexivity|].
  exact (proj1 (SetDebugLevel_returns_true sys_stream_fails kc_healthy
                  "default" "web-0" "web" "DEBUG_3" _ _ eq_refl)).
Defined.

Lemma append_each {A B} (f : A -> B) (items : list A) (acc : list B) :
  foldl (fun acc item => acc ++ [f item]) acc items = acc ++ (f <$> items).
Proof.
  revert acc. induction items as [|item rest IH]; intros acc; cbn.
  - by rewrite app_nil_r.
  - by rewrite IH, <- app_assoc.
Qed.

(** X15. When the exec channel opens, [GetAlerts] returns one alert per record
    that the decoder left in the slice, in order, each flattened from the
    labels and annotations of its record; it does so whether or not the
    stream failed and whether or not the decoder reported an error, and the
    only thing it prints is the error of the decoder. *)
Theorem GetAlerts_flattens_what_was_decoded
    (json_Unmarshal_origAlerts : string -> list origAlert * option error)
    (sys : Platform) (kc : K8sClient) (config : Config) :
  BuildConfigFromFlags sys = inr config ->
  NewSPDYExecutor sys config
    (exec_request "fed-prometheus" "alertmanager-prometheus-alerts-0" "alertmanager"
       amtool_command) = None ->
  let stdout :=
    (Stream sys config
       (exec_request "fed-prometheus" "alertmanager-prometheus-alerts-0" "alertmanager"
          amtool_command)).1.1 in
  run (GetAlerts json_Unmarshal_origAlerts sys kc)
  = (Returned (Alert_of <$> (json_Unmarshal_origAlerts stdout).1),
     match (json_Unmarshal_origAlerts stdout).2 with
     | Some err => [err +:+ nl]
     | None => []
     end).
Proof.
  intros Hconfig Hexec stdout.
  unfold run, GetAlerts. unfold bind at 1.
  rewrite ExecuteRemoteCommand_outcome, Hconfig. cbn zeta. rewrite Hexec. cbn [snd fst].
  fold stdout. unfold bind, ret.
  rewrite append_each.
  by destruct (json_Unmarshal_origAlerts stdout).2.
Qed.

Lemma GetAlerts_flattens_what_was_decoded_witness :
  BuildConfigFromFlags sys_ok = inr {| Host := "https://10.0.0.1:6443" |}
  /\ run (GetAlerts decode_alerts sys_ok kc_healthy)
     = (Returned [ {| AlertName := "A"; Severity := "critical"; StartsAt := "t1";
                      Alert_PodName := "p1"; Summary := "S" |} ], [])
  /\ run (GetAlerts decode_alerts sys_stream_fails kc_healthy)
     = (Returned [], ["unexpected end of JSON input" +:+ nl]).
Proof.
  split; [reflexivity|]. split.
  - exact (GetAlerts_flattens_what_was_decoded decode_alerts sys_ok kc_healthy _
             eq_refl eq_refl).
  - exact (GetAlerts_flattens_what_was_decoded decode_alerts sys_stream_fails kc_healthy _
             eq_refl eq_refl).
Defined.

(** ** Listings *)

(** X16. [GetPods], [GetClusterNamespaces] and [GetClusterNodesName] return
    the names of the listed objects in listing order, one per object; when
    the listing fails they return no name, which a caller cannot tell from an
    empty listing. *)
Theorem listings_return_the_names_in_order (kc : K8sClient) (core : CoreV1Interface)
    (namespace : string) :
  GetPods kc namespace
  = v1.Pod_Name <$> (List_result (Pods_List (Client kc) namespace)).1
  /\ GetClusterNamespaces core
     = Namespace_Name <$> (List_result (Namespaces_List core)).1
  /\ GetClusterNodesName kc
     = v1.Node_Name <$> (List_result (Nodes_List (Client kc))).1
  /\ (forall err, Pods_List (Client kc) namespace = inl err -> GetPods kc namespace = [])
  /\ (forall err, Namespaces_List core = inl err -> GetClusterNamespaces core = [])
  /\ (forall err, Nodes_List (Client kc) = inl err -> GetClusterNodesName kc = []).
Proof.
  unfold GetPods, GetClusterNamespaces, GetClusterNodesName.
  split_and!.
  - destruct (Pods_List (Client kc) namespace); [done|]. apply (append_each _ _ []).
  - destruct (Namespaces_List core); [done|]. apply (append_each _ _ []).
  - apply (append_each _ _ []).
  - by intros err ->.
  - by intros err ->.
  - by intros err ->.
Qed.

(** X17. [GetContainers] returns the container names of the first pod the
    selection by name yields, in the order of its spec, whatever other pods
    of that name there are in other namespaces; it panics when no pod has the
    name, and returns no name when the listing fails. *)
Theorem GetContainers_of_the_first_pod (core : CoreV1Interface) (pod : string) :
  (forall first others,
     Pods_List_selected core "" ("metadata.name=" +:+ pod) = inr (first :: others) ->
     run (GetContainers core pod)
     = (Returned (v1.Container_Name <$> v1.PodSpec_Containers (v1.Pod_Spec first)), []))
  /\ (Pods_List_selected core "" ("metadata.name=" +:+ pod) = inr [] ->
      run (GetContainers core pod) = (Panicked index_out_of_range, []))
  /\ (forall err,
        Pods_List_selected core "" ("metadata.name=" +:+ pod) = inl err ->
        run (GetContainers core pod) = (Returned [], [])).
Proof.
  unfold run, GetContainers. split_and!.
  - intros first others ->. unfold bind, index. cbn. by rewrite append_each.
  - by intros ->.
  - by intros err ->.
Qed.

Lemma GetContainers_of_the_first_pod_witness :
  Pods_List_selected core_bare "" ("metadata.name=" +:+ "web-1") = inr []
  /\ run (GetContainers core_bare "web-1") = (Panicked index_out_of_range, [])
  /\ run (GetContainers core_healthy "rediscluster-0") = (Returned ["redis-node"], []).
Proof.
  split; [reflexivity|]. split.
  - exact (proj1 (proj2 (GetContainers_of_the_first_pod core_bare "web-1")) eq_refl).
  - exact (proj1 (GetContainers_of_the_first_pod core_healthy "rediscluster-0")
             rediscluster_0 [] eq_refl).
Defined.

(** X18. [GetKargoServiceIP] returns no error exactly when the service is
    found and has a load-balancer ingress, and then returns the IP of the
    first ingress; next to every error the string it returns is empty. *)
Theorem GetKargoServiceIP_first_ingress (core : CoreV1Interface) :
  ((GetKargoServiceIP core).2 = None
   <-> exists service ingress others,
         Services_Get core "fed-paas-helpers" "kargo" = inr service
         /\ Service_Ingress service = ingress :: others
         /\ (GetKargoServiceIP core).1 = LoadBalancerIngress_IP ingress)
  /\ ((GetKargoServiceIP core).2 <> None -> (GetKargoServiceIP core).1 = "")
  /\ (forall service,
        Services_Get core "fed-paas-helpers" "kargo" = inr service ->
        Service_Ingress service = [] ->
        GetKargoServiceIP core
        = ("", Some "no LoadBalancer Ingress found for kargo service")).
Proof.
  unfold GetKargoServiceIP.
  destruct (Services_Get core "fed-paas-helpers" "kargo") as [err|service].
  - split_and!; [|done|done]. split; [done|]. by intros (? & ? & ? & ? & _).
  - destruct (Service_Ingress service) as [|ingress others] eqn:Hingress.
    + split_and!; [|done|].
      * split; [done|]. intros (s & i & o & [= <-] & Hi & _). congruence.
      * intros s [= <-] _. done.
    + split_and!; [|done|].
      * split; [|done]. intros _. by exists service, ingress, others.
      * intros s [= <-] Hnil. congruence.
Qed.

Lemma GetKargoServiceIP_first_ingress_witness :
  GetKargoServiceIP core_healthy = ("192.0.2.10", None)
  /\ GetKargoServiceIP core_bare
     = ("", Some "no LoadBalancer Ingress found for kargo service").
Proof.
  split; [reflexivity|].
  exact (proj2 (proj2 (GetKargoServiceIP_first_ingress core_bare))
           {| Service_Ingress := [] |} eq_refl eq_refl).
Defined.

(** ** The kubeconfig *)

Lemma current_cluster_from (entries : list (string * clientcmdapi.Context))
    (current cluster : string) :
  NoDup entries.*1 ->
  foldl (fun cluster entry =>
           if bool_decide (entry.1 = current) then clientcmdapi.Cluster entry.2 else cluster)
        cluster entries
  = default cluster
      (clientcmdapi.Cluster
         <$> (list_to_map entries : gmap string clientcmdapi.Context) !! current).
Proof.
  revert cluster. induction entries as [|[key context] rest IH]; intros cluster Hnodup.
  - done.
  - rewrite fmap_cons in Hnodup. apply NoDup_cons in Hnodup as [Hkey Hnodup].
    cbn [foldl fst snd list_to_map foldr]. rewrite IH by done.
    case_bool_decide as Hcurrent.
    + subst key. rewrite lookup_insert_eq.
      by rewrite (not_elem_of_list_to_map_1 _ current Hkey).
    + by rewrite lookup_insert_ne.
Qed.

(** X19. Whatever the order in which the contexts of the kubeconfig are
    visited, [GetCurrentCluster] returns the cluster of the current context,
    and the empty string when the current context is not among the contexts;
    it panics when the kubeconfig cannot be loaded. *)
Theorem GetCurrentCluster_of_the_current_context
    (LoadFromFile : error + clientcmdapi.Config)
    (range : gmap string clientcmdapi.Context -> list (string * clientcmdapi.Context)) :
  (forall config,
     LoadFromFile = inr config ->
     range (clientcmdapi.Contexts config) ≡ₚ map_to_list (clientcmdapi.Contexts config) ->
     run (GetCurrentCluster LoadFromFile range)
     = (Returned
          (default ""
             (clientcmdapi.Cluster
                <$> clientcmdapi.Contexts config !! clientcmdapi.CurrentContext config)),
        []))
  /\ (forall err,
        LoadFromFile = inl err ->
        run (GetCurrentCluster LoadFromFile range) = (Panicked err, [])).
Proof.
  unfold run, GetCurrentCluster, GetClustersFromKubeConfig, bind. split.
  - intros config -> Hrange. cbn [ret]. do 2 f_equal.
    assert (Hnodup : NoDup (range (clientcmdapi.Contexts config)).*1).
    { rewrite Hrange. apply NoDup_fst_map_to_list. }
    rewrite current_cluster_from by done.
    rewrite (list_to_map_proper _ _ Hnodup Hrange), list_to_map_to_list. done.
  - by intros err ->.
Qed.

Lemma GetCurrentCluster_of_the_current_context_witness :
  map_to_list kubeconfig_contexts ≡ₚ map_to_list kubeconfig_contexts
  /\ run (GetCurrentCluster (inr kubeconfig_demo) map_to_list) = (Returned "prod", [])
  /\ run (GetCurrentCluster (inr kubeconfig_demo) (fun m => reverse (map_to_list m)))
     = (Returned "prod", []).
Proof.
  split; [reflexivity|]. split.
  - exact (proj1 (GetCurrentCluster_of_the_current_context (inr kubeconfig_demo) map_to_list)
             kubeconfig_demo eq_refl (reflexivity _)).
  - exact (proj1 (GetCurrentCluster_of_the_current_context (inr kubeconfig_demo)
                    (fun m => reverse (map_to_list m)))
             kubeconfig_demo eq_refl (reverse_Permutation _)).
Defined.

Lemma SetContext_config_from (entries : list (string * clientcmdapi.Context))
    (config : clientcmdapi.Config) (contextToSwitch : string) :
  let config' :=
    foldl (fun config entry =>
             if bool_decide (clientcmdapi.Cluster entry.2 = contextToSwitch)
             then {| clientcmdapi.Contexts := clientcmdapi.Contexts config;
                     clientcmdapi.CurrentContext := entry.1 |}
             else config)
          config entries in
  clientcmdapi.Contexts config' = clientcmdapi.Contexts config
  /\ ((clientcmdapi.CurrentContext config' = clientcmdapi.CurrentContext config
       /\ forall entry, entry ∈ entries -> clientcmdapi.Cluster entry.2 <> contextToSwitch)
      \/ exists context,
           (clientcmdapi.CurrentContext config', context) ∈ entries
           /\ clientcmdapi.Cluster context = contextToSwitch).
Proof.
  revert config. induction entries as [|[key context] rest IH]; intros config.
  - cbn. split; [done|]. left. split; [done|]. by intros ? ?%elem_of_nil.
  - cbn [foldl fst snd]. case_bool_decide as Hmatch.
    + destruct (IH {| clientcmdapi.Contexts := clientcmdapi.Contexts config;
                      clientcmdapi.CurrentContext := key |})
        as [Hcontexts [[Hcurrent Hnone]|(context' & Hin & Hcluster)]];
        (split; [done|]); right.
      * exists context. cbn zeta. rewrite Hcurrent. split; [apply list_elem_of_here | done].
      * exists context'. split; [by apply list_elem_of_further | done].
    + destruct (IH config) as [Hcontexts [[Hcurrent Hnone]|(context' & Hin & Hcluster)]];
        (split; [done|]); [left|right].
      * split; [done|]. intros entry [->|Hin]%elem_of_cons; [done | by apply Hnone].
      * exists context'. split; [by apply list_elem_of_further | done].
Qed.

(** X20. The loop of [SetContext] compares its argument with the cluster of
    each context, not with the context's name. Whatever the order in which
    the contexts are visited: the contexts are left as they are; the current
    context is left as it is when no context is on that cluster; otherwise it
    becomes a context on that cluster, and the one such context when there is
    only one. *)
Theorem SetContext_selects_by_cluster
    (range : gmap string clientcmdapi.Context -> list (string * clientcmdapi.Context))
    (config : clientcmdapi.Config) (contextToSwitch : string) :
  range (clientcmdapi.Contexts config) ≡ₚ map_to_list (clientcmdapi.Contexts config) ->
  let config' := SetContext_config range config contextToSwitch in
  clientcmdapi.Contexts config' = clientcmdapi.Contexts config
  /\ ((forall key context,
         clientcmdapi.Contexts config !! key = Some context ->
         clientcmdapi.Cluster context <> contextToSwitch) ->
      clientcmdapi.CurrentContext config' = clientcmdapi.CurrentContext config)
  /\ ((exists key context,
         clientcmdapi.Contexts config !! key = Some context
         /\ clientcmdapi.Cluster context = contextToSwitch) ->
      exists context,
        clientcmdapi.Contexts config !! clientcmdapi.CurrentContext config' = Some context
        /\ clientcmdapi.Cluster context = contextToSwitch)
  /\ (forall key context,
        clientcmdapi.Contexts config !! key = Some context ->
        clientcmdapi.Cluster context = contextToSwitch ->
        (forall key' context',
           clientcmdapi.Contexts config !! key' = Some context' ->
           clientcmdapi.Cluster context' = contextToSwitch -> key' = key) ->
        clientcmdapi.CurrentContext config' = key).
Proof.
  intros Hrange config'.
  assert (Hin : forall key context,
             (key, context) ∈ range (clientcmdapi.Contexts config)
             <-> clientcmdapi.Contexts config !! key = Some context).
  { intros key context. by rewrite Hrange, elem_of_map_to_list. }
  destruct (SetContext_config_from (range (clientcmdapi.Contexts config)) config
              contextToSwitch) as [Hcontexts Hcurrent].
  fold (SetContext_config range config contextToSwitch) in Hcontexts, Hcurrent.
  fold config' in Hcontexts, Hcurrent.
  assert (Hsome : (exists key context,
                     clientcmdapi.Contexts config !! key = Some context
                     /\ clientcmdapi.Cluster context = contextToSwitch) ->
                  exists context,
                    clientcmdapi.Contexts config !! clientcmdapi.CurrentContext config'
                    = Some context
                    /\ clientcmdapi.Cluster context = contextToSwitch).
  { intros (key & context & Hlookup & Hcluster).
    destruct Hcurrent as [[_ Hnone]|(context' & Hentry & Hcluster')].
    - exfalso. by apply (Hnone (key, context)), Hcluster; apply Hin.
    - exists context'. split; [by apply Hin | done]. }
  split_and!; [done | | done |].
  - intros Hnone. destruct Hcurrent as [[Hsame _]|(context & Hentry & Hcluster)]; [done|].
    exfalso. apply Hin in Hentry. by apply (Hnone _ _ Hentry).
  - intros key context Hlookup Hcluster Hunique.
    destruct Hsome as (context' & Hlookup' & Hcluster'); [by exists key, context|].
    by apply (Hunique _ _ Hlookup' Hcluster').
Qed.

Lemma SetContext_selects_by_cluster_witness :
  map_to_list (clientcmdapi.Contexts kubeconfig_demo)
  ≡ₚ map_to_list (clientcmdapi.Contexts kubeconfig_demo)
  /\ clientcmdapi.CurrentContext (SetContext_config map_to_list kubeconfig_demo "dev")
     = "dev-admin"
  /\ clientcmdapi.CurrentContext (SetContext_config map_to_list kubeconfig_demo "dev-admin")
     = "prod-admin".
Proof.
  split; [reflexivity|].
  pose proof (SetContext_selects_by_cluster map_to_list kubeconfig_demo "dev-admin"
                (reflexivity _)) as (_ & Hnone & _).
  split; [vm_compute; reflexivity|].
  apply Hnone. intros key context Hlookup Hcluster.
  unfold kubeconfig_demo, kubeconfig_contexts in Hlookup. cbn in Hlookup.
  repeat (apply lookup_insert_Some in Hlookup as [[<- <-]|[_ Hlookup]]; [discriminate|]).
  by rewrite lookup_empty in Hlookup.
Defined.
